(** * StreatMart: order lifecycle, inventory and supplier ratings

    A shallow embedding of the Express/Mongoose back end of the marketplace:
    the route handlers of [server/routes/orders.js] (place an order, update
    its status) and [server/routes/reviews.js] (add a review, recompute the
    supplier rating), together with the parts of the Mongoose schemas
    ([Material], [Order], [Review]) those handlers read and write.

    Conventions of the embedding.
    - A MongoDB collection is a finite map from the document [_id] to the
      document; the [reviews] collection, which the code only scans, is the
      list of its documents in insertion order.
    - An ObjectId is the string the client sends and the server prints; only
      well-formed ids are considered (no cast failure on [findById]).
    - A JavaScript Number that holds a quantity, a stock level or a rating
      is an integer ([Z]), as the forms of the pages and the requests of the
      specification have them.  A Number that holds money (a unit price, a
      subtotal, the delivery fee, a total) is what it is in the code, an IEEE
      754 binary64 value ([float]): prices are decimals, and the sums and
      products of the code are the rounded ones, taken in the order the code
      takes them.  The denormalised average rating, the one place where the
      code divides, is a rational ([Q]).
    - A handler is a state transformer over the database that either goes
      on, answers the request ([return res.status(..).json(..)]) or throws;
      nothing is rolled back when it answers early or throws, exactly as in
      the code, where every [save()] is its own write. *)

From Stdlib Require Import Floats.
From Stdlib Require Import ZArith QArith Qround String List Bool Lia.
From stdpp Require Import base option gmap strings list fin_maps pretty.

Local Open Scope string_scope.
Local Open Scope Z_scope.

(** ** JavaScript values *)

Abbreviation ObjectId := string (only parsing).

(** The Number an integer is when it meets a price: the binary64 value
    nearest to it (ties to even), the integer itself up to 2^53. *)
Definition Number_of (z : Z) : float :=
  SF2Prim (binary_normalize prec emax z 0 false).

(** [!s] on a string: the empty string is falsy. *)
Definition truthy (s : string) : bool := negb (String.eqb s "").

(** [!x] on a field of [req.body] that holds a string when present. *)
Definition provided (o : option string) : bool :=
  match o with
  | Some s => truthy s
  | None => false
  end.

(** [arr.includes(x)] on an array of strings. *)
Definition includes (arr : list string) (x : string) : bool :=
  existsb (String.eqb x) arr.

(** A [Date] object: a time value in milliseconds, or [Invalid Date]. *)
Inductive JsDate :=
| ValidDate (ms : Z)
| InvalidDate.

Inductive JsError :=
| ReferenceError (identifier : string)
| TypeError (what : string)
| ValidationError (path : string)
| DuplicateKeyError (index : string).

(** ** Schemas *)

(** [models/Material.js]: the paths the order routes use. *)
Module Material.
Record t := mk {
  supplierId : ObjectId;
  name : string;
  unitPrice : float;
  unit : string;
  stock : Z;
  isAvailable : bool
}.
Definition set_stock (m : t) (s : Z) : t :=
  mk (supplierId m) (name m) (unitPrice m) (unit m) s (isAvailable m).
End Material.

(** [orderItemSchema] of [models/Order.js]. *)
Module OrderItem.
Record t := mk {
  materialId : ObjectId;
  name : string;
  quantity : Z;
  unitPrice : float;
  unit : string
}.
End OrderItem.

(** [orderSchema] of [models/Order.js]. *)
Module Order.
Record t := mk {
  vendorId : ObjectId;
  supplierId : ObjectId;
  items : list OrderItem.t;
  subtotal : float;
  deliveryFee : float;
  totalAmount : float;
  status : string;
  deliveryAddress : string;
  vendorPhone : string;
  supplierNotes : option string;
  estimatedDeliveryTime : option JsDate;
  actualDeliveryTime : option JsDate;
  paymentMethod : string;
  paymentStatus : string
}.
Definition set_status (o : t) (s : string) : t :=
  mk (vendorId o) (supplierId o) (items o) (subtotal o) (deliveryFee o)
     (totalAmount o) s (deliveryAddress o) (vendorPhone o) (supplierNotes o)
     (estimatedDeliveryTime o) (actualDeliveryTime o) (paymentMethod o)
     (paymentStatus o).
Definition set_supplierNotes (o : t) (n : string) : t :=
  mk (vendorId o) (supplierId o) (items o) (subtotal o) (deliveryFee o)
     (totalAmount o) (status o) (deliveryAddress o) (vendorPhone o) (Some n)
     (estimatedDeliveryTime o) (actualDeliveryTime o) (paymentMethod o)
     (paymentStatus o).
Definition set_estimatedDeliveryTime (o : t) (d : JsDate) : t :=
  mk (vendorId o) (supplierId o) (items o) (subtotal o) (deliveryFee o)
     (totalAmount o) (status o) (deliveryAddress o) (vendorPhone o)
     (supplierNotes o) (Some d) (actualDeliveryTime o) (paymentMethod o)
     (paymentStatus o).
Definition set_actualDeliveryTime (o : t) (d : JsDate) : t :=
  mk (vendorId o) (supplierId o) (items o) (subtotal o) (deliveryFee o)
     (totalAmount o) (status o) (deliveryAddress o) (vendorPhone o)
     (supplierNotes o) (estimatedDeliveryTime o) (Some d) (paymentMethod o)
     (paymentStatus o).
(** The [enum] of the [status] path. *)
Definition status_enum : list string :=
  ["pending"; "confirmed"; "out_for_delivery"; "delivered"; "cancelled"].
End Order.

(** [reviewSchema]. *)
Module Review.
Record categories_t := mk_categories {
  quality : option Z;
  delivery : option Z;
  service : option Z
}.
Record t := mk {
  vendorId : ObjectId;
  supplierId : ObjectId;
  orderId : ObjectId;
  rating : Z;
  comment : option string;
  categories : option categories_t
}.
End Review.

(** Modelled from the spec: the User model ([models/User.js]) is not among the
    sources.  The record holds the fields the routes read from [req.user]
    ([_id], [role], [phone]) and the two denormalised fields that
    [updateSupplierRating] writes ([rating], [totalRatings]); the spec calls
    them the average rating and the total review count of a supplier. *)
Module User.
Record t := mk {
  _id : ObjectId;
  role : string;
  phone : string;
  rating : Q;
  totalRatings : Z
}.
Definition set_rating (u : t) (r : Q) (n : Z) : t :=
  mk (_id u) (role u) (phone u) r n.
End User.

(** ** The database *)

Record Db := mkDb {
  materials : gmap string Material.t;
  orders : gmap string Order.t;
  reviews : list Review.t;
  users : gmap string User.t
}.

Definition with_materials (db : Db) (m : gmap string Material.t) : Db :=
  mkDb m (orders db) (reviews db) (users db).
Definition with_orders (db : Db) (o : gmap string Order.t) : Db :=
  mkDb (materials db) o (reviews db) (users db).
Definition with_reviews (db : Db) (r : list Review.t) : Db :=
  mkDb (materials db) (orders db) r (users db).
Definition with_users (db : Db) (u : gmap string User.t) : Db :=
  mkDb (materials db) (orders db) (reviews db) u.

(** ** Responses *)

(** The document a response carries next to its message. *)
Inductive Doc :=
| NoDoc
| OrderDoc (_id : ObjectId) (order : Order.t)
| ReviewDoc (review : Review.t).

(** [res.status(code).json({ message, ... })]. *)
Record Reply := mkReply {
  code : Z;
  message : string;
  doc : Doc
}.

Definition json (c : Z) (msg : string) : Reply := mkReply c msg NoDoc.

(** ** Handler monad: database state, early answer, exception *)

Inductive Flow (A : Type) :=
| Next (a : A)
| Answer (r : Reply)
| Throw (e : JsError).
Arguments Next {A} a.
Arguments Answer {A} r.
Arguments Throw {A} e.

Definition Act (A : Type) : Type := Db -> Flow A * Db.

#[global] Instance Act_ret : MRet Act := fun A a db => (Next a, db).

#[global] Instance Act_bind : MBind Act := fun A B f m db =>
  match m db with
  | (Next a, db') => f a db'
  | (Answer r, db') => (Answer r, db')
  | (Throw e, db') => (Throw e, db')
  end.

Definition answer {A} (r : Reply) : Act A := fun db => (Answer r, db).
Definition throw {A} (e : JsError) : Act A := fun db => (Throw e, db).
Definition get_db : Act Db := fun db => (Next db, db).
Definition put_db (db' : Db) : Act unit := fun _ => (Next tt, db').

(** [try { body } catch (error) { res.status(500).json(..) }] around a whole
    handler: writes done before the exception stay done. *)
Definition try_catch (body : Act Reply) (on_error : Reply) (db : Db) : Reply * Db :=
  match body db with
  | (Next r, db') => (r, db')
  | (Answer r, db') => (r, db')
  | (Throw _, db') => (on_error, db')
  end.

(** ** Mongoose operations *)

(** [Material.findById(id)]. *)
Definition Material_findById (id : ObjectId) : Act (option Material.t) :=
  db ← get_db; mret (materials db !! id).

(** [material.save()]: the [stock] path, the one the route modifies, has the
    validator [min: 0]. *)
Definition Material_save (id : ObjectId) (m : Material.t) : Act unit :=
  if Material.stock m <? 0 then throw (ValidationError "stock")
  else db ← get_db; put_db (with_materials db (<[id := m]> (materials db))).

(** The validators of [orderItemSchema]: [required] and [min]; the [min: 0]
    of a price is the comparison [value >= 0] of two Numbers. *)
Definition validate_orderItem (it : OrderItem.t) : bool :=
  truthy (OrderItem.materialId it) && truthy (OrderItem.name it)
  && (1 <=? OrderItem.quantity it) && (0 <=? OrderItem.unitPrice it)%float
  && truthy (OrderItem.unit it).

Definition valid_date (d : option JsDate) : bool :=
  match d with
  | Some InvalidDate => false
  | _ => true
  end.

(** The validators of [orderSchema]: [required], [min] and [enum]; a Date
    path holding [Invalid Date] fails its cast. *)
Definition validate_Order (o : Order.t) : bool :=
  truthy (Order.vendorId o) && truthy (Order.supplierId o)
  && forallb validate_orderItem (Order.items o)
  && (0 <=? Order.subtotal o)%float && (0 <=? Order.deliveryFee o)%float
  && (0 <=? Order.totalAmount o)%float
  && includes Order.status_enum (Order.status o)
  && truthy (Order.deliveryAddress o) && truthy (Order.vendorPhone o)
  && valid_date (Order.estimatedDeliveryTime o)
  && valid_date (Order.actualDeliveryTime o)
  && includes ["cash"; "online"] (Order.paymentMethod o)
  && includes ["pending"; "paid"; "failed"] (Order.paymentStatus o).

(** [order.save()] on a document made by [new Order(..)]: validation, then an
    insert under the freshly generated [_id]. *)
Definition Order_insert (id : ObjectId) (o : Order.t) : Act unit :=
  if negb (validate_Order o) then throw (ValidationError "order")
  else
    db ← get_db;
    match orders db !! id with
    | Some _ => throw (DuplicateKeyError "_id")
    | None => put_db (with_orders db (<[id := o]> (orders db)))
    end.

(** [order.save()] on a document that a query returned. *)
Definition Order_save (id : ObjectId) (o : Order.t) : Act unit :=
  if negb (validate_Order o) then throw (ValidationError "order")
  else db ← get_db; put_db (with_orders db (<[id := o]> (orders db))).

(** ** [POST /place] of [routes/orders.js] *)

Record CartItem := mkCartItem {
  materialId : ObjectId;
  quantity : Z
}.

Record PlaceBody := mkPlaceBody {
  pb_supplierId : option ObjectId;
  pb_items : option (list CartItem);
  pb_deliveryAddress : option string
}.

Definition has_items (o : option (list CartItem)) : bool :=
  match o with
  | Some (_ :: _) => true
  | _ => false
  end.

(** The [for (const item of items)] loop, with the accumulators [subtotal]
    and [orderItems] it updates. *)
Fixpoint place_loop (items : list CartItem) (subtotal : float)
    (orderItems : list OrderItem.t) : Act (float * list OrderItem.t) :=
  match items with
  | [] => mret (subtotal, orderItems)
  | item :: rest =>
    found ← Material_findById (materialId item);
    match found with
    | None =>
      answer (json 400 ("Material " +:+ materialId item +:+ " is not available"))
    | Some material =>
      if negb (Material.isAvailable material) then
        answer (json 400 ("Material " +:+ materialId item +:+ " is not available"))
      else if Material.stock material <? quantity item then
        answer (json 400 ("Insufficient stock for " +:+ Material.name material
                          +:+ ". Available: " +:+ pretty (Material.stock material)))
      else
        let itemTotal :=
          (Material.unitPrice material * Number_of (quantity item))%float in
        let subtotal := (subtotal + itemTotal)%float in
        let orderItems := (orderItems ++
          [OrderItem.mk (materialId item) (Material.name material) (quantity item)
             (Material.unitPrice material) (Material.unit material)])%list in
        Material_save (materialId item)
          (Material.set_stock material (Material.stock material - quantity item));;
        place_loop rest subtotal orderItems
    end
  end.

(** [new Order({ vendorId, supplierId, items, subtotal, deliveryFee,
    totalAmount, deliveryAddress, vendorPhone })]: the other paths take the
    defaults of the schema. *)
Definition new_Order (vendorId supplierId : ObjectId) (items : list OrderItem.t)
    (subtotal deliveryFee totalAmount : float) (deliveryAddress vendorPhone : string)
    : Order.t :=
  Order.mk vendorId supplierId items subtotal deliveryFee totalAmount "pending"
    deliveryAddress vendorPhone None None None "cash" "pending".

(** The handler; [new_id] is the [_id] that [new Order] generates. *)
Definition place_body (user : User.t) (new_id : ObjectId) (body : PlaceBody)
    : Act Reply :=
  match pb_supplierId body, pb_items body, pb_deliveryAddress body with
  | Some supplierId, Some items, Some deliveryAddress =>
    if negb (truthy supplierId) || negb (has_items (Some items))
       || negb (truthy deliveryAddress)
    then answer (json 400 "Required fields are missing")
    else
      '(subtotal, orderItems) ← place_loop items 0%float [];
      let deliveryFee := 50%float in
      let totalAmount := (subtotal + deliveryFee)%float in
      let order := new_Order (User._id user) supplierId orderItems subtotal
                     deliveryFee totalAmount deliveryAddress (User.phone user) in
      Order_insert new_id order;;
      mret (mkReply 201 "Order placed successfully" (OrderDoc new_id order))
  | _, _, _ => answer (json 400 "Required fields are missing")
  end.

Definition place (user : User.t) (new_id : ObjectId) (body : PlaceBody)
    : Db -> Reply * Db :=
  try_catch (place_body user new_id body) (json 500 "Server error placing order").

(** ** [PATCH /:orderId/status] of [routes/orders.js] *)

Record StatusBody := mkStatusBody {
  sb_status : option string;
  sb_supplierNotes : option string;
  sb_estimatedDeliveryTime : option string
}.

(** The object literal [validTransitions], key by key. *)
Definition validTransitions : list (string * list string) :=
  [("pending", ["confirmed"; "cancelled"]);
   ("confirmed", ["out_for_delivery"; "cancelled"]);
   ("out_for_delivery", ["delivered"]);
   ("delivered", []);
   ("cancelled", [])].

(** [obj[key]] on an object literal: [None] is [undefined]. *)
Fixpoint property (obj : list (string * list string)) (key : string)
    : option (list string) :=
  match obj with
  | [] => None
  | (k, v) :: rest => if String.eqb k key then Some v else property rest key
  end.

(** [Order.findOne({ _id: id, ...conditions })]. *)
Definition Order_findOne (id : ObjectId) (conditions : Order.t -> bool)
    : Act (option Order.t) :=
  db ← get_db;
  mret (match orders db !! id with
        | Some o => if conditions o then Some o else None
        | None => None
        end).

Section UpdateStatus.

(** [new Date(s)] on a string is the parser of the JavaScript engine. *)
Variable Date_parse : string -> JsDate.

(** The assignments the handler makes once the transition is allowed:
    [order.status = status], the two guarded assignments, and the stamp of
    [new Date()], whose time value is [now]. *)
Definition assign_update (order : Order.t) (status : string)
    (body : StatusBody) (now : Z) : Order.t :=
  let order := Order.set_status order status in
  let order :=
    match sb_supplierNotes body with
    | Some supplierNotes =>
      if truthy supplierNotes
      then Order.set_supplierNotes order supplierNotes else order
    | None => order
    end in
  let order :=
    match sb_estimatedDeliveryTime body with
    | Some estimatedDeliveryTime =>
      if truthy estimatedDeliveryTime
      then Order.set_estimatedDeliveryTime order
             (Date_parse estimatedDeliveryTime)
      else order
    | None => order
    end in
  if String.eqb status "delivered"
  then Order.set_actualDeliveryTime order (ValidDate now)
  else order.

Definition update_status_body (user : User.t) (orderId : ObjectId)
    (body : StatusBody) (now : Z) : Act Reply :=
  match sb_status body with
  | None => answer (json 400 "Status is required")
  | Some status =>
    if negb (truthy status) then answer (json 400 "Status is required")
    else
      found ← Order_findOne orderId
                (fun o => String.eqb (Order.supplierId o) (User._id user));
      match found with
      | None => answer (json 404 "Order not found or unauthorized")
      | Some order =>
        match property validTransitions (Order.status order) with
        | None => throw (TypeError "validTransitions[order.status] is undefined")
        | Some allowed =>
          if negb (includes allowed status) then
            answer (json 400 ("Cannot transition from " +:+ Order.status order
                              +:+ " to " +:+ status))
          else
            let order := assign_update order status body now in
            Order_save orderId order;;
            mret (mkReply 200 "Order status updated successfully"
                    (OrderDoc orderId order))
        end
      end
  end.

Definition update_status (user : User.t) (orderId : ObjectId)
    (body : StatusBody) (now : Z) : Db -> Reply * Db :=
  try_catch (update_status_body user orderId body now)
    (json 500 "Server error updating order status").

(** The paths through the handler, one constructor per [return] and per
    way into the [catch]. *)
Inductive update_status_outcome (user : User.t) (orderId : ObjectId)
    (body : StatusBody) (now : Z) (db : Db) : Reply -> Db -> Prop :=
| Status_required :
    provided (sb_status body) = false ->
    update_status_outcome user orderId body now db
      (json 400 "Status is required") db
| Status_not_found status :
    sb_status body = Some status -> truthy status = true ->
    (forall o, orders db !! orderId = Some o ->
               Order.supplierId o <> User._id user) ->
    update_status_outcome user orderId body now db
      (json 404 "Order not found or unauthorized") db
| Status_unknown_state status order :
    sb_status body = Some status -> truthy status = true ->
    orders db !! orderId = Some order ->
    Order.supplierId order = User._id user ->
    property validTransitions (Order.status order) = None ->
    update_status_outcome user orderId body now db
      (json 500 "Server error updating order status") db
| Status_illegal status order allowed :
    sb_status body = Some status -> truthy status = true ->
    orders db !! orderId = Some order ->
    Order.supplierId order = User._id user ->
    property validTransitions (Order.status order) = Some allowed ->
    includes allowed status = false ->
    update_status_outcome user orderId body now db
      (json 400 ("Cannot transition from " +:+ Order.status order
                 +:+ " to " +:+ status)) db
| Status_invalid status order allowed :
    sb_status body = Some status -> truthy status = true ->
    orders db !! orderId = Some order ->
    Order.supplierId order = User._id user ->
    property validTransitions (Order.status order) = Some allowed ->
    includes allowed status = true ->
    validate_Order (assign_update order status body now) = false ->
    update_status_outcome user orderId body now db
      (json 500 "Server error updating order status") db
| Status_updated status order allowed :
    sb_status body = Some status -> truthy status = true ->
    orders db !! orderId = Some order ->
    Order.supplierId order = User._id user ->
    property validTransitions (Order.status order) = Some allowed ->
    includes allowed status = true ->
    validate_Order (assign_update order status body now) = true ->
    update_status_outcome user orderId body now db
      (mkReply 200 "Order status updated successfully"
         (OrderDoc orderId (assign_update order status body now)))
      (with_orders db
         (<[orderId := assign_update order status body now]> (orders db))).

End UpdateStatus.

(** ** [POST /] of [routes/reviews.js] *)

Record ReviewBody := mkReviewBody {
  rb_orderId : option ObjectId;
  rb_supplierId : option ObjectId;
  rb_rating : option Z;
  rb_comment : option string;
  rb_categories : option Review.categories_t
}.

Definition in_1_5 (o : option Z) : bool :=
  match o with
  | Some n => (1 <=? n) && (n <=? 5)
  | None => true
  end.

(** The validators of [reviewSchema]. *)
Definition validate_Review (r : Review.t) : bool :=
  truthy (Review.vendorId r) && truthy (Review.supplierId r)
  && truthy (Review.orderId r)
  && (1 <=? Review.rating r) && (Review.rating r <=? 5)
  && match Review.comment r with
     | Some c => (String.length c <=? 500)%nat
     | None => true
     end
  && match Review.categories r with
     | Some c => in_1_5 (Review.quality c) && in_1_5 (Review.delivery c)
                 && in_1_5 (Review.service c)
     | None => true
     end.

(** [Review.findOne({ orderId })]. *)
Definition Review_findOne (orderId : ObjectId) : Act (option Review.t) :=
  db ← get_db;
  mret (List.find (fun r => String.eqb (Review.orderId r) orderId) (reviews db)).

(** [review.save()] on a new document: validation, then an insert that the
    unique index on [orderId] can refuse. *)
Definition Review_save (r : Review.t) : Act unit :=
  if negb (validate_Review r) then throw (ValidationError "review")
  else
    db ← get_db;
    if existsb (fun r' => String.eqb (Review.orderId r') (Review.orderId r))
         (reviews db)
    then throw (DuplicateKeyError "orderId")
    else put_db (with_reviews db (reviews db ++ [r])%list).

(** One document of the [$group] stage. *)
Record Stats := mkStats {
  averageRating : Q;
  totalReviews : Z
}.

Definition sum_ratings (rs : list Review.t) : Z :=
  fold_right (fun r acc => Review.rating r + acc) 0 rs.

(** [Review.aggregate([{ $match: { supplierId } }, { $group: { _id: null,
    averageRating: { $avg: '$rating' }, totalReviews: { $sum: 1 } } }])]:
    no document when nothing matches, one document otherwise. *)
Definition Review_aggregate (supplierId : ObjectId) : Act (list Stats) :=
  db ← get_db;
  let matched :=
    List.filter (fun r => String.eqb (Review.supplierId r) supplierId) (reviews db) in
  mret (match matched with
        | [] => []
        | _ :: _ =>
          [mkStats (Qdiv (inject_Z (sum_ratings matched))
                         (inject_Z (Z.of_nat (length matched))))
                   (Z.of_nat (length matched))]
        end).

(** [Math.round]: the nearest integer, a tie going up. *)
Definition Math_round (x : Q) : Z := Qfloor (Qplus x (1 # 2)).

(** [User.findByIdAndUpdate(id, { rating, totalRatings })]. *)
Definition User_findByIdAndUpdate (id : ObjectId) (rating : Q) (totalRatings : Z)
    : Act unit :=
  db ← get_db;
  match users db !! id with
  | Some u => put_db (with_users db (<[id := User.set_rating u rating totalRatings]> (users db)))
  | None => mret tt
  end.

(** The identifiers that [routes/reviews.js] binds at module level: its five
    [import] lines, [router] and the function declaration. *)
Definition reviews_js_scope : list string :=
  ["express"; "Review"; "Order"; "User"; "authenticate"; "requireRole";
   "router"; "updateSupplierRating"].

(** Evaluating an identifier that is neither bound in the module nor a
    global of the runtime throws. *)
Definition identifier (scope : list string) (x : string) : Act unit :=
  if includes scope x then mret tt else throw (ReferenceError x).

(** [try { body } catch (error) { console.error(..) }]. *)
Definition try_log (body : Act unit) : Act unit := fun db =>
  match body db with
  | (Throw _, db') => (Next tt, db')
  | res => res
  end.

(** [updateSupplierRating], evaluated in a module with the bindings [scope].
    The argument of [Review.aggregate] mentions [mongoose.Types.ObjectId], so
    [mongoose] is evaluated before the query runs. *)
Definition updateSupplierRating_in (scope : list string) (supplierId : ObjectId)
    : Act unit :=
  try_log (
    identifier scope "mongoose";;
    stats ← Review_aggregate supplierId;
    match stats with
    | s :: _ =>
      User_findByIdAndUpdate supplierId
        (Qdiv (inject_Z (Math_round (Qmult (averageRating s) (inject_Z 10))))
              (inject_Z 10))
        (totalReviews s)
    | [] => mret tt
    end).

Definition updateSupplierRating : ObjectId -> Act unit :=
  updateSupplierRating_in reviews_js_scope.

Definition rating_given (o : option Z) : bool :=
  match o with
  | Some rating => negb (rating =? 0)
  | None => false
  end.

Definition add_review_body (scope : list string) (user : User.t)
    (body : ReviewBody) : Act Reply :=
  match rb_orderId body, rb_supplierId body, rb_rating body with
  | Some orderId, Some supplierId, Some rating =>
    if negb (truthy orderId) || negb (truthy supplierId)
       || negb (rating_given (Some rating))
    then answer (json 400 "Order ID, supplier ID, and rating are required")
    else
      found ← Order_findOne orderId
                (fun o => String.eqb (Order.vendorId o) (User._id user)
                          && String.eqb (Order.status o) "delivered");
      match found with
      | None =>
        answer (json 400 "Order not found, unauthorized, or not delivered yet")
      | Some _ =>
        existingReview ← Review_findOne orderId;
        match existingReview with
        | Some _ => answer (json 400 "Review already exists for this order")
        | None =>
          let review := Review.mk (User._id user) supplierId orderId rating
                          (rb_comment body) (rb_categories body) in
          Review_save review;;
          updateSupplierRating_in scope supplierId;;
          mret (mkReply 201 "Review added successfully" (ReviewDoc review))
        end
      end
  | _, _, _ => answer (json 400 "Order ID, supplier ID, and rating are required")
  end.

(** The handler in a module with the bindings [scope]. *)
Definition add_review_in (scope : list string) (user : User.t)
    (body : ReviewBody) : Db -> Reply * Db :=
  try_catch (add_review_body scope user body)
    (json 500 "Server error adding review").

(** The route as the repository has it. *)
Definition add_review : User.t -> ReviewBody -> Db -> Reply * Db :=
  add_review_in reviews_js_scope.

(** The paths through the handler. *)
Inductive add_review_outcome (scope : list string) (user : User.t)
    (body : ReviewBody) (db : Db) : Reply -> Db -> Prop :=
| Review_fields_required :
    provided (rb_orderId body) && provided (rb_supplierId body)
      && rating_given (rb_rating body) = false ->
    add_review_outcome scope user body db
      (json 400 "Order ID, supplier ID, and rating are required") db
| Review_not_eligible orderId supplierId rating :
    rb_orderId body = Some orderId -> rb_supplierId body = Some supplierId ->
    rb_rating body = Some rating ->
    (forall o, orders db !! orderId = Some o ->
               ~ (Order.vendorId o = User._id user /\ Order.status o = "delivered")) ->
    add_review_outcome scope user body db
      (json 400 "Order not found, unauthorized, or not delivered yet") db
| Review_exists orderId supplierId rating order existing :
    rb_orderId body = Some orderId -> rb_supplierId body = Some supplierId ->
    rb_rating body = Some rating ->
    orders db !! orderId = Some order ->
    Order.vendorId order = User._id user -> Order.status order = "delivered" ->
    In existing (reviews db) -> Review.orderId existing = orderId ->
    add_review_outcome scope user body db
      (json 400 "Review already exists for this order") db
| Review_invalid orderId supplierId rating order :
    rb_orderId body = Some orderId -> rb_supplierId body = Some supplierId ->
    rb_rating body = Some rating ->
    orders db !! orderId = Some order ->
    Order.vendorId order = User._id user -> Order.status order = "delivered" ->
    (forall r, In r (reviews db) -> Review.orderId r <> orderId) ->
    validate_Review (Review.mk (User._id user) supplierId orderId rating
                       (rb_comment body) (rb_categories body)) = false ->
    add_review_outcome scope user body db
      (json 500 "Server error adding review") db
| Review_added orderId supplierId rating order :
    rb_orderId body = Some orderId -> rb_supplierId body = Some supplierId ->
    rb_rating body = Some rating ->
    truthy orderId = true -> truthy supplierId = true -> rating <> 0 ->
    orders db !! orderId = Some order ->
    Order.vendorId order = User._id user -> Order.status order = "delivered" ->
    (forall r, In r (reviews db) -> Review.orderId r <> orderId) ->
    let review := Review.mk (User._id user) supplierId orderId rating
                    (rb_comment body) (rb_categories body) in
    validate_Review review = true ->
    add_review_outcome scope user body db
      (mkReply 201 "Review added successfully" (ReviewDoc review))
      (snd (updateSupplierRating_in scope supplierId
              (with_reviews db (reviews db ++ [review])%list))).

(** ** The role gate *)

Inductive Routed :=
| AuthorizationError
| Handled (r : Reply).

(** Modelled from the spec: the middleware [requireRole] of
    [middleware/auth.js] is not among the sources.  By the spec the core
    trusts the role of the resolved identity at its authorization gates, and a
    wrong role is an AuthorizationError, fatal to the request: the handler
    does not run. *)
Definition requireRole (roles : list string) (user : User.t)
    (handler : Db -> Reply * Db) (db : Db) : Routed * Db :=
  if includes roles (User.role user)
  then let '(r, db') := handler db in (Handled r, db')
  else (AuthorizationError, db).

(** [router.post('/place', authenticate, requireRole(['vendor']), ..)]. *)
Definition route_place (user : User.t) (new_id : ObjectId) (body : PlaceBody)
    : Db -> Routed * Db :=
  requireRole ["vendor"] user (place user new_id body).

(** [router.patch('/:orderId/status', authenticate, requireRole(['supplier']), ..)]. *)
Definition route_update_status (Date_parse : string -> JsDate) (user : User.t)
    (orderId : ObjectId) (body : StatusBody) (now : Z) : Db -> Routed * Db :=
  requireRole ["supplier"] user (update_status Date_parse user orderId body now).

(** [router.post('/', authenticate, requireRole(['vendor']), ..)] of the
    review routes. *)
Definition route_add_review (user : User.t) (body : ReviewBody)
    : Db -> Routed * Db :=
  requireRole ["vendor"] user (add_review user body).

(** ** Vocabulary of the specification *)

(** The sum over item snapshots of unit price times quantity, in the
    arithmetic of the code: the snapshots are taken one after the other, in
    the order of the items, each product added to the sum so far, which
    starts at [subtotal]. *)
Definition items_total_from (subtotal : float) (l : list OrderItem.t) : float :=
  fold_left
    (fun subtotal it =>
       (subtotal + OrderItem.unitPrice it * Number_of (OrderItem.quantity it))%float)
    l subtotal.

(** The sum from 0, as [items.reduce((sum, item) => sum + item.unitPrice *
    item.quantity, 0)] takes it over the items of an order. *)
Definition items_total (l : list OrderItem.t) : float := items_total_from 0 l.

(** What a handler that only writes the catalog leaves alone. *)
Definition ledger_untouched (db db' : Db) : Prop :=
  orders db' = orders db /\ reviews db' = reviews db /\ users db' = users db.

(** The legal transition table of the specification, row by row. *)
Inductive legal_transition : string -> string -> Prop :=
| pending_confirmed : legal_transition "pending" "confirmed"
| pending_cancelled : legal_transition "pending" "cancelled"
| confirmed_out_for_delivery : legal_transition "confirmed" "out_for_delivery"
| confirmed_cancelled : legal_transition "confirmed" "cancelled"
| out_for_delivery_delivered : legal_transition "out_for_delivery" "delivered".

(** The ratings of all reviews stored for a supplier. *)
Definition ratings_of (supplierId : ObjectId) (db : Db) : list Z :=
  map Review.rating
    (List.filter (fun r => String.eqb (Review.supplierId r) supplierId) (reviews db)).

(** The catalog with every material handed to another owner: the field
    [supplierId] of [materialSchema] replaced, all else kept. *)
Definition reown (owner : ObjectId) (m : Material.t) : Material.t :=
  Material.mk owner (Material.name m) (Material.unitPrice m) (Material.unit m)
    (Material.stock m) (Material.isAvailable m).

Definition reown_catalog (owner : ObjectId) (db : Db) : Db :=
  with_materials db (reown owner <$> materials db).

(** The mean of a list of ratings rounded to one decimal. *)
Definition mean_round1 (ratings : list Z) : Q :=
  Qdiv (inject_Z (Math_round
          (Qmult (Qdiv (inject_Z (fold_right Z.add 0 ratings))
                       (inject_Z (Z.of_nat (length ratings))))
                 (inject_Z 10))))
       (inject_Z 10).

(** ** Scenarios *)

Module Scenario.

Definition vendor : User.t := User.mk "V1" "vendor" "9000000001" 0 0.
Definition supplier1 : User.t := User.mk "S1" "supplier" "9000000002" 0 0.
Definition supplier2 : User.t := User.mk "S2" "supplier" "9000000003" 0 0.

Definition accounts : gmap string User.t :=
  <["V1" := vendor]> (<["S1" := supplier1]> (<["S2" := supplier2]> ∅)).

Definition M1 : Material.t := Material.mk "S1" "Onion" 20 "kg" 10 true.
Definition M2 (stock : Z) : Material.t :=
  Material.mk "S1" "Oil" 50 "liter" stock true.

(** The catalog of the two placement scenarios of the specification:
    stock(M1) = 10 and stock(M2) as given. *)
Definition catalog (stockM2 : Z) : Db :=
  mkDb (<["M1" := M1]> (<["M2" := M2 stockM2]> ∅)) ∅ [] accounts.

(** cart = [{M1, qty 2}, {M2, qty 1}] for supplier S1. *)
Definition cart : PlaceBody :=
  mkPlaceBody (Some "S1") (Some [mkCartItem "M1" 2; mkCartItem "M2" 1])
    (Some "12 Market Road").

(** A cart of M1, which S1 owns, declared for supplier S2. *)
Definition foreign_cart : PlaceBody :=
  mkPlaceBody (Some "S2") (Some [mkCartItem "M1" 2]) (Some "12 Market Road").

Definition parse (s : string) : JsDate :=
  if String.eqb s "2025-01-01T00:00:00.000Z" then ValidDate 1735689600000
  else InvalidDate.

(** An order of the vendor with supplier S1 in the given status. *)
Definition order_in (status : string) : Order.t :=
  Order.mk "V1" "S1"
    [OrderItem.mk "M1" "Onion" 2 20 "kg"] 40 50 90 status
    "12 Market Road" "9000000001" None None None "cash" "pending".

(** Three delivered orders of the vendor with supplier S1, no review yet. *)
Definition delivered3 : Db :=
  mkDb ∅
    (<["O1" := order_in "delivered"]>
       (<["O2" := order_in "delivered"]> (<["O3" := order_in "delivered"]> ∅)))
    [] accounts.

Definition review_of (orderId supplierId : ObjectId) (rating : Z) : ReviewBody :=
  mkReviewBody (Some orderId) (Some supplierId) (Some rating) None None.

(** Reviews with ratings 5, 3 and 4 for supplier S1, submitted in turn
    through the handler evaluated in a module with the bindings [scope]. *)
Definition three_reviews (scope : list string) : Db :=
  let db1 := snd (add_review_in scope vendor (review_of "O1" "S1" 5) delivered3) in
  let db2 := snd (add_review_in scope vendor (review_of "O2" "S1" 3) db1) in
  snd (add_review_in scope vendor (review_of "O3" "S1" 4) db2).

(** The Number a price with one decimal is: n / 10. *)
Definition tenths (n : Z) : float := (Number_of n / 10)%float.

(** The catalog after the cart was placed as order O1. *)
Definition placed : Db := snd (place vendor "O1" cart (catalog 5)).

(** The order O1 that this placement stores. *)
Definition placed_order : Order.t :=
  new_Order "V1" "S1"
    [OrderItem.mk "M1" "Onion" 2 20 "kg"; OrderItem.mk "M2" "Oil" 1 50 "liter"]
    90 50 140 "12 Market Road" "9000000001".

End Scenario.

(** ** The Materials page: the cart *)

(** A material as the page holds it: a document of [GET /api/materials],
    whose [supplierId] is populated with the supplier's [_id], [name] and
    optional [businessName]. *)
Module Listing.
Record t := mk {
  _id : ObjectId;
  name : string;
  unitPrice : float;
  unit : string;
  supplier_id : ObjectId;
  supplier_name : string;
  supplier_businessName : option string
}.
End Listing.

(** The interface [CartItem] of the page. *)
Module Cart.
Record t := mk {
  materialId : ObjectId;
  name : string;
  unitPrice : float;
  unit : string;
  quantity : Z;
  supplierId : ObjectId;
  supplierName : string
}.
(** [{ ...item, quantity }]. *)
Definition set_quantity (item : t) (q : Z) : t :=
  mk (materialId item) (name item) (unitPrice item) (unit item) q
     (supplierId item) (supplierName item).
End Cart.

(** [a || b] on an optional string and a string. *)
Definition or_else (a : option string) (b : string) : string :=
  match a with
  | Some s => if truthy s then s else b
  | None => b
  end.

(** [addToCart]: the state [cart] it closes over, and the state it sets. *)
Definition addToCart (cart : list Cart.t) (material : Listing.t) (quantity : Z)
    : list Cart.t :=
  let existingItem :=
    List.find (fun item => String.eqb (Cart.materialId item) (Listing._id material))
      cart in
  match existingItem with
  | Some _ =>
    map (fun item =>
           if String.eqb (Cart.materialId item) (Listing._id material)
           then Cart.set_quantity item (Cart.quantity item + quantity)
           else item) cart
  | None =>
    (cart ++
     [Cart.mk (Listing._id material) (Listing.name material)
        (Listing.unitPrice material) (Listing.unit material) quantity
        (Listing.supplier_id material)
        (or_else (Listing.supplier_businessName material)
           (Listing.supplier_name material))])%list
  end.

Definition removeFromCart (cart : list Cart.t) (materialId : ObjectId)
    : list Cart.t :=
  List.filter (fun item => negb (String.eqb (Cart.materialId item) materialId)) cart.

Definition updateCartQuantity (cart : list Cart.t) (materialId : ObjectId)
    (quantity : Z) : list Cart.t :=
  if quantity <=? 0 then removeFromCart cart materialId
  else
    map (fun item =>
           if String.eqb (Cart.materialId item) materialId
           then Cart.set_quantity item quantity
           else item) cart.

(** [cart.reduce((total, item) => total + (item.unitPrice * item.quantity), 0)]. *)
Definition getTotalAmount (cart : list Cart.t) : float :=
  fold_left (fun total item =>
               (total + Cart.unitPrice item * Number_of (Cart.quantity item))%float)
    cart 0%float.

(** One value of the object [ordersBySupplier]. *)
Record OrderGroup := mkOrderGroup {
  og_supplierId : ObjectId;
  og_supplierName : string;
  og_items : list CartItem
}.

(** The callback of the [reduce] that groups the cart by supplier.  The
    accumulator object is the list of its own properties, key and value, in
    the order they were created; its keys are ObjectIds, which are neither
    array indices nor names of [Object.prototype]. *)
Definition group_step (acc : list (string * OrderGroup)) (item : Cart.t)
    : list (string * OrderGroup) :=
  let acc :=
    if existsb (fun kv => String.eqb (fst kv) (Cart.supplierId item)) acc
    then acc
    else (acc ++ [(Cart.supplierId item,
                   mkOrderGroup (Cart.supplierId item) (Cart.supplierName item) [])])%list in
  map (fun kv =>
         if String.eqb (fst kv) (Cart.supplierId item)
         then (fst kv,
               mkOrderGroup (og_supplierId (snd kv)) (og_supplierName (snd kv))
                 (og_items (snd kv)
                  ++ [mkCartItem (Cart.materialId item) (Cart.quantity item)])%list)
         else kv) acc.

Definition ordersBySupplier (cart : list Cart.t) : list (string * OrderGroup) :=
  fold_left group_step cart [].

(** The bodies of the [POST /api/orders/place] requests that [placeOrder]
    sends, one per value of [ordersBySupplier]; none for an empty cart. *)
Definition placeOrder_requests (cart : list Cart.t) : list PlaceBody :=
  match cart with
  | [] => []
  | _ :: _ =>
    map (fun orderGroup =>
           mkPlaceBody (Some (og_supplierId orderGroup))
             (Some (og_items orderGroup))
             (Some "Default delivery address"))
        (map snd (ordersBySupplier cart))
  end.

From Stdlib Require Import Ascii.

(** The [{ materialId, quantity }] lines of the cart items of one supplier,
    in cart order. *)
Definition lines_of (supplierId : ObjectId) (cart : list Cart.t) : list CartItem :=
  map (fun item => mkCartItem (Cart.materialId item) (Cart.quantity item))
    (List.filter (fun item => String.eqb (Cart.supplierId item) supplierId) cart).

(** What the accumulator of the [reduce] holds after the items [seen]. *)
Definition grouped (seen : list Cart.t) (acc : list (string * OrderGroup)) : Prop :=
  List.NoDup (map fst acc) /\
  (forall key group, In (key, group) acc ->
     og_supplierId group = key /\
     og_items group = lines_of key seen /\
     In key (map Cart.supplierId seen)) /\
  (forall item, In item seen -> In (Cart.supplierId item) (map fst acc)).

(** ** Vocabulary for the catalog *)

(** The quantity of one material over the lines of a cart. *)
Definition ordered (id : ObjectId) (items : list CartItem) : Z :=
  fold_right (fun item acc =>
                if String.eqb (materialId item) id then quantity item + acc else acc)
    0 items.

(** The item snapshot the loop of the placement pushes for a line and the
    material found for it. *)
Definition snapshot (material : Material.t) (item : CartItem) : OrderItem.t :=
  OrderItem.mk (materialId item) (Material.name material) (quantity item)
    (Material.unitPrice material) (Material.unit material).

(** The catalog [after] is the catalog [before] with the stock of every
    material lowered by what the lines [items] order of it. *)
Definition charged (items : list CartItem) (before after : gmap string Material.t)
    : Prop :=
  forall id,
    after !! id
    = (fun m => Material.set_stock m (Material.stock m - ordered id items))
        <$> before !! id.

(** ** The Orders page *)

(** The object literal [transitions] of [getNextStatus]. *)
Definition transitions : list (string * list string) :=
  [("pending", ["confirmed"; "cancelled"]);
   ("confirmed", ["out_for_delivery"; "cancelled"]);
   ("out_for_delivery", ["delivered"]);
   ("delivered", []);
   ("cancelled", [])].

(** [transitions[currentStatus] || []]. *)
Definition getNextStatus (currentStatus : string) : list string :=
  match property transitions currentStatus with
  | Some next => next
  | None => []
  end.

(** The body of the [PATCH] request of [updateOrderStatus]:
    [{ status: newStatus, supplierNotes: notes }]. *)
Definition updateOrderStatus_body (newStatus : string) (notes : option string)
    : StatusBody :=
  mkStatusBody (Some newStatus) notes None.

(** [\w] of a regular expression: an ASCII letter, a digit or the
    underscore. *)
Definition is_word (c : Ascii.ascii) : bool :=
  let n := Ascii.nat_of_ascii c in
  ((48 <=? n) && (n <=? 57) || (65 <=? n) && (n <=? 90)
   || (97 <=? n) && (n <=? 122) || (n =? 95))%nat.

(** [l.toUpperCase()] on one character that [\w] matched. *)
Definition toUpperCase (c : Ascii.ascii) : Ascii.ascii :=
  let n := Ascii.nat_of_ascii c in
  if ((97 <=? n) && (n <=? 122))%nat then Ascii.ascii_of_nat (n - 32) else c.

(** [s.replace(/_/g, ' ')]. *)
Fixpoint underscores_to_spaces (s : string) : string :=
  match s with
  | EmptyString => EmptyString
  | String c rest =>
    String (if Ascii.eqb c "_"%char then " "%char else c) (underscores_to_spaces rest)
  end.

(** [s.replace(/\b\w/g, l => l.toUpperCase())]: a word character is matched
    when the character before it, if any, is not a word character. *)
Fixpoint capitalise_words (after_word : bool) (s : string) : string :=
  match s with
  | EmptyString => EmptyString
  | String c rest =>
    String (if is_word c && negb after_word then toUpperCase c else c)
      (capitalise_words (is_word c) rest)
  end.

Definition formatStatus (status : string) : string :=
  capitalise_words false (underscores_to_spaces status).

(** ** [GET /:orderId] of [routes/orders.js] *)

(** [Order.findById(id).populate('vendorId', ..).populate('supplierId', ..)]
    and the authorization check on the populated document.  A populated path
    is the user found under the referenced id, or [null] when there is none;
    reading [_id] of [null] throws. *)
Definition get_order_body (user : User.t) (orderId : ObjectId) : Act Reply :=
  db ← get_db;
  match orders db !! orderId with
  | None => answer (json 404 "Order not found")
  | Some order =>
    let vendor := users db !! Order.vendorId order in
    let supplier := users db !! Order.supplierId order in
    match vendor with
    | None => throw (TypeError "order.vendorId is null")
    | Some _ =>
      if negb (String.eqb (Order.vendorId order) (User._id user)) then
        match supplier with
        | None => throw (TypeError "order.supplierId is null")
        | Some _ =>
          if negb (String.eqb (Order.supplierId order) (User._id user))
          then answer (json 403 "Unauthorized to view this order")
          else mret (mkReply 200 "" (OrderDoc orderId order))
        end
      else mret (mkReply 200 "" (OrderDoc orderId order))
    end
  end.

Definition get_order (user : User.t) (orderId : ObjectId) : Db -> Reply * Db :=
  try_catch (get_order_body user orderId)
    (json 500 "Server error fetching order details").

(** ** [DELETE /:id] of [routes/materials.js] *)

(** [Material.findOneAndDelete({ _id: id, ...conditions })]. *)
Definition Material_findOneAndDelete (id : ObjectId)
    (conditions : Material.t -> bool) : Act (option Material.t) :=
  db ← get_db;
  match materials db !! id with
  | Some m =>
    if conditions m
    then put_db (with_materials db (delete id (materials db)));; mret (Some m)
    else mret None
  | None => mret None
  end.

Definition delete_material_body (user : User.t) (id : ObjectId) : Act Reply :=
  material ← Material_findOneAndDelete id
               (fun m => String.eqb (Material.supplierId m) (User._id user));
  match material with
  | None => answer (json 404 "Material not found or unauthorized")
  | Some _ => mret (json 200 "Material deleted successfully")
  end.

Definition delete_material (user : User.t) (id : ObjectId) : Db -> Reply * Db :=
  try_catch (delete_material_body user id)
    (json 500 "Server error deleting material").

(** ** [GET /supplier/:supplierId] of [routes/reviews.js] *)

(** The body of a successful reply. *)
Record ReviewsPage := mkReviewsPage {
  rp_reviews : list Review.t;
  rp_totalPages : Z;
  rp_currentPage : positive;
  rp_total : Z;
  rp_stats : Stats;
  rp_ratingDistribution : gmap Z (option Z)
}.

Inductive ReviewsReply :=
| ReviewsError (code : Z) (message : string)
| ReviewsOk (page : ReviewsPage).

(** [Review.find({ supplierId }).sort({ createdAt: -1 }).limit(limit * 1)
    .skip((page - 1) * limit)]: the matching reviews, newest first, without
    the pages before [page].  The query parameters [page] and [limit] are
    positive integers. *)
Definition Review_find_page (supplierId : ObjectId) (page limit : positive)
    : Act (list Review.t) :=
  db ← get_db;
  mret (firstn (Pos.to_nat limit)
          (skipn ((Pos.to_nat page - 1) * Pos.to_nat limit)
             (rev (List.filter
                     (fun r => String.eqb (Review.supplierId r) supplierId)
                     (reviews db))))).

(** [Review.countDocuments({ supplierId })]. *)
Definition Review_countDocuments (supplierId : ObjectId) : Act Z :=
  db ← get_db;
  mret (Z.of_nat (length (List.filter
                            (fun r => String.eqb (Review.supplierId r) supplierId)
                            (reviews db)))).

(** The [$group] stage of this route also pushes the ratings. *)
Definition Review_aggregate_ratings (supplierId : ObjectId)
    : Act (list (Stats * list Z)) :=
  db ← get_db;
  let matched :=
    List.filter (fun r => String.eqb (Review.supplierId r) supplierId) (reviews db) in
  mret (match matched with
        | [] => []
        | _ :: _ =>
          [(mkStats (Qdiv (inject_Z (sum_ratings matched))
                          (inject_Z (Z.of_nat (length matched))))
                    (Z.of_nat (length matched)),
            map Review.rating matched)]
        end).

(** [ratingDistribution[rating]++] on the object [ratingDistribution]; a
    count of [None] is [NaN], what [undefined++] leaves under a new key. *)
Definition count_rating (ratingDistribution : gmap Z (option Z)) (rating : Z)
    : gmap Z (option Z) :=
  match ratingDistribution !! rating with
  | Some (Some n) => <[rating := Some (n + 1)]> ratingDistribution
  | Some None => ratingDistribution
  | None => <[rating := None]> ratingDistribution
  end.

(** [Math.ceil(total / limit)] for a positive [limit]. *)
Definition pages (total : Z) (limit : positive) : Z :=
  (total + Z.pos limit - 1) / Z.pos limit.

Definition supplier_reviews_body (scope : list string) (supplierId : ObjectId)
    (page limit : positive) : Act ReviewsPage :=
  reviews ← Review_find_page supplierId page limit;
  total ← Review_countDocuments supplierId;
  identifier scope "mongoose";;
  stats ← Review_aggregate_ratings supplierId;
  let ratingDistribution : gmap Z (option Z) :=
    <[1 := Some 0]> (<[2 := Some 0]> (<[3 := Some 0]> (<[4 := Some 0]>
      (<[5 := Some 0]> ∅)))) in
  let ratingDistribution :=
    match stats with
    | (_, ratings) :: _ => fold_left count_rating ratings ratingDistribution
    | [] => ratingDistribution
    end in
  mret (mkReviewsPage reviews (pages total limit) page total
          (match stats with
           | (s, _) :: _ => s
           | [] => mkStats (inject_Z 0) 0
           end)
          ratingDistribution).

(** The handler in a module with the bindings [scope]. *)
Definition supplier_reviews_in (scope : list string) (supplierId : ObjectId)
    (page limit : positive) (db : Db) : ReviewsReply * Db :=
  match supplier_reviews_body scope supplierId page limit db with
  | (Next p, db') => (ReviewsOk p, db')
  | (Answer r, db') => (ReviewsError (code r) (message r), db')
  | (Throw _, db') => (ReviewsError 500 "Server error fetching reviews", db')
  end.

(** The route as the repository has it. *)
Definition supplier_reviews : ObjectId -> positive -> positive -> Db -> ReviewsReply * Db :=
  supplier_reviews_in reviews_js_scope.

(** ** Vocabulary for the ledger *)

(** What every stored order looks like: a status of the schema, lines with a
    quantity of at least 1 at a price that passes [min: 0], a subtotal that
    is the sum the code takes over the snapshots, in their order, the fee of
    50, a total that is the Number [subtotal + deliveryFee], and a delivery
    stamp once delivered. *)
Definition well_formed_order (o : Order.t) : Prop :=
  In (Order.status o) Order.status_enum /\
  Forall (fun it => 1 <= OrderItem.quantity it /\
                    (0 <=? OrderItem.unitPrice it)%float = true)
    (Order.items o) /\
  Order.subtotal o = items_total (Order.items o) /\
  Order.deliveryFee o = 50%float /\
  Order.totalAmount o = (Order.subtotal o + Order.deliveryFee o)%float /\
  (Order.status o = "delivered" ->
   exists ms, Order.actualDeliveryTime o = Some (ValidDate ms)).

Definition ledger_ok (db : Db) : Prop :=
  forall id o, orders db !! id = Some o -> well_formed_order o.

(** What every stored review looks like: a rating from 1 to 5 on a delivered
    order of its author, and no second review of the same order. *)
Definition reviews_ok (db : Db) : Prop :=
  List.NoDup (map Review.orderId (reviews db)) /\
  forall r, In r (reviews db) ->
    1 <= Review.rating r <= 5 /\
    exists o, orders db !! Review.orderId r = Some o /\
              Order.vendorId o = Review.vendorId r /\
              Order.status o = "delivered".

(** One [PATCH /:orderId/status] request. *)
Record StatusRequest := mkStatusRequest {
  sr_user : User.t;
  sr_orderId : ObjectId;
  sr_body : StatusBody;
  sr_now : Z
}.

(** The requests served one after the other: the database they leave. *)
Fixpoint after_status_requests (Date_parse : string -> JsDate)
    (requests : list StatusRequest) (db : Db) : Db :=
  match requests with
  | [] => db
  | rq :: rest =>
    after_status_requests Date_parse rest
      (snd (update_status Date_parse (sr_user rq) (sr_orderId rq) (sr_body rq)
              (sr_now rq) db))
  end.

(** How many of the requests served one after the other change the status of
    the order [orderId]. *)
Fixpoint transitions_of (Date_parse : string -> JsDate) (orderId : ObjectId)
    (requests : list StatusRequest) (db : Db) : nat :=
  match requests with
  | [] => 0%nat
  | rq :: rest =>
    let res := update_status Date_parse (sr_user rq) (sr_orderId rq) (sr_body rq)
                 (sr_now rq) db in
    ((if String.eqb (sr_orderId rq) orderId && Z.eqb (code (fst res)) 200
      then 1%nat else 0%nat)
     + transitions_of Date_parse orderId rest (snd res))%nat
  end.

(** How far along its life an order is: the steps behind a status. *)
Definition progress (status : string) : nat :=
  if String.eqb status "pending" then 0%nat
  else if String.eqb status "confirmed" then 1%nat
  else if String.eqb status "out_for_delivery" then 2%nat
  else 3%nat.


(** * Order placement *)

Ltac unfold_act :=
  unfold mbind, Act_bind, mret, Act_ret, answer, throw, get_db, put_db in *.

Lemma ledger_untouched_refl db : ledger_untouched db db.
Proof. repeat split. Qed.

Lemma ledger_untouched_trans db1 db2 db3 :
  ledger_untouched db1 db2 -> ledger_untouched db2 db3 -> ledger_untouched db1 db3.
Proof.
  intros (H1 & H2 & H3) (H4 & H5 & H6); repeat split; congruence.
Qed.

Lemma place_loop_spec (items : list CartItem) :
  forall subtotal orderItems db,
    ledger_untouched db (snd (place_loop items subtotal orderItems db)) /\
    match fst (place_loop items subtotal orderItems db) with
    | Next (subtotal', orderItems') =>
      exists added,
        orderItems' = (orderItems ++ added)%list /\
        subtotal' = items_total_from subtotal added
    | Answer r => code r = 400 /\ doc r = NoDoc
    | Throw _ => True
    end.
Proof.
  induction items as [|item rest IH]; intros subtotal orderItems db.
  - simpl. split; [apply ledger_untouched_refl|].
    exists []. rewrite app_nil_r. simpl. split; reflexivity.
  - simpl. unfold Material_findById, Material_save. unfold_act.
    destruct (materials db !! materialId item) as [material|]; simpl;
      [|split; [apply ledger_untouched_refl | split; reflexivity]].
    destruct (Material.isAvailable material); simpl;
      [|split; [apply ledger_untouched_refl | split; reflexivity]].
    destruct (Material.stock material <? quantity item); simpl;
      [split; [apply ledger_untouched_refl | split; reflexivity]|].
    destruct (Material.stock material - quantity item <? 0); simpl;
      [split; [apply ledger_untouched_refl | exact I]|].
    match goal with
    | |- context [place_loop rest ?s ?o ?d] =>
      destruct (IH s o d) as [Hframe Hres]
    end.
    split.
    + eapply ledger_untouched_trans; [|exact Hframe]. repeat split.
    + destruct (fst (place_loop rest _ _ _)) as [[subtotal' orderItems']|r|e];
        try exact Hres.
      destruct Hres as (added & -> & ->).
      eexists (_ :: added). rewrite <- app_assoc. simpl.
      split; reflexivity.
Qed.

Lemma place_cases (user : User.t) (new_id : ObjectId) (body : PlaceBody) (db : Db) :
  let res := place user new_id body db in
  (code (fst res) = 201 /\
   exists supplierId deliveryAddress order,
     pb_supplierId body = Some supplierId /\
     pb_deliveryAddress body = Some deliveryAddress /\
     order = new_Order (User._id user) supplierId (Order.items order)
               (items_total (Order.items order)) 50
               (items_total (Order.items order) + 50)%float
               deliveryAddress (User.phone user) /\
     fst res = mkReply 201 "Order placed successfully" (OrderDoc new_id order) /\
     orders db !! new_id = None /\
     orders (snd res) = <[new_id := order]> (orders db))
  \/ ((code (fst res) = 400 \/ code (fst res) = 500) /\ doc (fst res) = NoDoc /\
      orders (snd res) = orders db).
Proof.
  unfold place, try_catch, place_body.
  destruct (pb_supplierId body) as [supplierId|]; [|right; simpl; auto].
  destruct (pb_items body) as [items|]; [|right; simpl; auto].
  destruct (pb_deliveryAddress body) as [deliveryAddress|]; [|right; simpl; auto].
  destruct (negb (truthy supplierId) || negb (has_items (Some items))
            || negb (truthy deliveryAddress)); [right; simpl; auto|].
  unfold_act.
  pose proof (place_loop_spec items 0%float [] db) as [(Ho & _ & _) Hres].
  destruct (place_loop items 0%float [] db) as [[[subtotal orderItems]|r|e] db1];
    simpl in Ho, Hres; simpl.
  - destruct Hres as (added & -> & ->). simpl.
    unfold Order_insert. unfold_act.
    destruct (validate_Order _); simpl; [|right; auto].
    rewrite Ho.
    destruct (orders db !! new_id) eqn:Hfresh; simpl; [right; auto|].
    left. split; [reflexivity|].
    eexists supplierId, deliveryAddress, _. repeat split; try reflexivity.
  - right. destruct Hres as [Hc Hd]. rewrite Hc, Hd. auto.
  - right. auto.
Qed.

(** Claim C2.  Every successful placement creates an order whose delivery fee is
    the constant 50, whose subtotal is the sum over its item snapshots of
    unit price times quantity, whose total is subtotal plus delivery fee, and
    whose status is "pending"; that order is the one stored under the new id
    and returned.  The amounts are the Numbers of the code: the sum is taken
    over the snapshots in their order, from 0, and sum, products and total
    are the rounded binary64 ones. *)
Theorem place_success_totals (user : User.t) (new_id : ObjectId)
    (body : PlaceBody) (db db' : Db) (r : Reply) :
  place user new_id body db = (r, db') ->
  code r = 201 ->
  exists order,
    doc r = OrderDoc new_id order /\
    orders db' !! new_id = Some order /\
    Order.deliveryFee order = 50%float /\
    Order.subtotal order = items_total (Order.items order) /\
    Order.totalAmount order
    = (Order.subtotal order + Order.deliveryFee order)%float /\
    Order.status order = "pending".
Proof.
  intros Hrun Hcode.
  pose proof (place_cases user new_id body db) as Hc. rewrite Hrun in Hc.
  simpl in Hc.
  destruct Hc as [(_ & supplierId & addr & order & _ & _ & Ho & -> & _ & Hins)
                 | ([H | H] & _)]; [|rewrite Hcode in H; discriminate..].
  exists order. rewrite Hins, lookup_insert_eq. rewrite Ho. simpl.
  repeat split; reflexivity.
Qed.

Lemma place_failure_stores_no_order (user : User.t) (new_id : ObjectId)
    (body : PlaceBody) (db : Db) :
  code (fst (place user new_id body db)) <> 201 ->
  doc (fst (place user new_id body db)) = NoDoc /\
  orders (snd (place user new_id body db)) = orders db.
Proof.
  intros Hcode.
  destruct (place_cases user new_id body db) as [[H _] | (_ & Hd & Ho)];
    [contradiction | auto].
Qed.

Lemma place_attributes_declared_supplier (user : User.t) (new_id : ObjectId)
    (body : PlaceBody) (db : Db) (order : Order.t) :
  code (fst (place user new_id body db)) = 201 ->
  orders (snd (place user new_id body db)) !! new_id = Some order ->
  pb_supplierId body = Some (Order.supplierId order).
Proof.
  intros Hcode Hlook.
  destruct (place_cases user new_id body db)
    as [(_ & supplierId & addr & o & Hs & _ & Ho & _ & _ & Hins) | ([H | H] & _)];
    [|rewrite Hcode in H; discriminate..].
  rewrite Hins, lookup_insert_eq in Hlook. injection Hlook as <-.
  rewrite Ho. simpl. exact Hs.
Qed.

(** Claim C1.  The second placement scenario of the specification, run on the
    code: the cart [{M1, qty 2}, {M2, qty 1}] against stock(M1) = 10 and
    stock(M2) = 0.  The operation fails on M2 and stores no order, yet the
    stock of M1, validated earlier in the same cart, was already written back
    as 8: a partial mutation. *)
Theorem place_failure_keeps_earlier_decrement :
  let before := Scenario.catalog 0 in
  let res := place Scenario.vendor "O1" Scenario.cart before in
  Material.stock <$> materials before !! "M1" = Some 10 /\
  Material.stock <$> materials before !! "M2" = Some 0 /\
  fst res = json 400 "Insufficient stock for Oil. Available: 0" /\
  orders (snd res) = ∅ /\
  Material.stock <$> materials (snd res) !! "M1" = Some 8.
Proof.
  vm_compute. repeat split; reflexivity.
Qed.

(** The loop reads [isAvailable], [stock], [name], [unitPrice] and [unit] of
    a material and never its [supplierId]: handing the catalog to any other
    owner changes neither the reply nor what is written. *)
Lemma place_loop_reown (owner : ObjectId) (items : list CartItem) :
  forall subtotal orderItems db,
    place_loop items subtotal orderItems (reown_catalog owner db)
    = (fst (place_loop items subtotal orderItems db),
       reown_catalog owner (snd (place_loop items subtotal orderItems db))).
Proof.
  induction items as [|item rest IH]; intros subtotal orderItems db.
  - reflexivity.
  - simpl. unfold Material_findById, Material_save. unfold_act.
    cbn [materials reown_catalog with_materials]. rewrite lookup_fmap.
    destruct (materials db !! materialId item) as [material|]; simpl;
      [|reflexivity].
    destruct (Material.isAvailable material); simpl; [|reflexivity].
    destruct (Material.stock material <? quantity item); simpl; [reflexivity|].
    destruct (Material.stock material - quantity item <? 0); simpl; [reflexivity|].
    match goal with
    | |- context [place_loop rest ?s ?o (with_materials db ?m)] =>
      rewrite <- (IH s o (with_materials db m))
    end.
    unfold reown_catalog, with_materials; simpl.
    rewrite fmap_insert. reflexivity.
Qed.

Lemma place_reown (owner : ObjectId) (user : User.t) (new_id : ObjectId)
    (body : PlaceBody) (db : Db) :
  place user new_id body (reown_catalog owner db)
  = (fst (place user new_id body db),
     reown_catalog owner (snd (place user new_id body db))).
Proof.
  unfold place, try_catch, place_body.
  destruct (pb_supplierId body) as [supplierId|]; [|reflexivity].
  destruct (pb_items body) as [items|]; [|reflexivity].
  destruct (pb_deliveryAddress body) as [deliveryAddress|]; [|reflexivity].
  destruct (negb (truthy supplierId) || negb (has_items (Some items))
            || negb (truthy deliveryAddress)); [reflexivity|].
  unfold_act. rewrite place_loop_reown.
  destruct (place_loop items 0%float [] db) as [[[subtotal orderItems]|r|e] db1];
    simpl; try reflexivity.
  unfold Order_insert. unfold_act.
  destruct (validate_Order _); simpl; [|reflexivity].
  destruct (orders db1 !! new_id); reflexivity.
Qed.

(** Claim C9.  Placement never compares the owner of a material with the
    declared supplier.  Handing the catalog to any other owner changes
    neither the reply nor what is written; and for some request whose
    material belongs to another supplier than the declared one (two units of
    M1, which S1 owns and holds 10 of, declared for S2) the placement
    succeeds, the stock of the material goes down by the ordered quantity,
    from 10 to 8, and the stored order holds the snapshot of that material
    and is attributed to the declared supplier, not to the owner of the
    material. *)
Theorem place_ignores_material_owner :
  (forall (owner : ObjectId) (user : User.t) (new_id : ObjectId)
          (body : PlaceBody) (db : Db),
     place user new_id body (reown_catalog owner db)
     = (fst (place user new_id body db),
        reown_catalog owner (snd (place user new_id body db)))) /\
  exists (user : User.t) (new_id : ObjectId) (body : PlaceBody) (db : Db)
         (item : CartItem) (material : Material.t) (declared : ObjectId)
         (order : Order.t),
    pb_supplierId body = Some declared /\
    pb_items body = Some [item] /\
    0 < quantity item /\
    materials db !! materialId item = Some material /\
    Material.supplierId material <> declared /\
    Material.stock material = 10 /\
    code (fst (place user new_id body db)) = 201 /\
    materials (snd (place user new_id body db)) !! materialId item
      = Some (Material.set_stock material (Material.stock material - quantity item)) /\
    Material.stock <$> materials (snd (place user new_id body db)) !! materialId item
      = Some 8 /\
    orders db !! new_id = None /\
    orders (snd (place user new_id body db)) !! new_id = Some order /\
    Order.items order = [snapshot material item] /\
    Order.supplierId order = declared /\
    Order.supplierId order <> Material.supplierId material.
Proof.
  split.
  - intros owner user new_id body db. apply place_reown.
  - exists Scenario.vendor, "O1", Scenario.foreign_cart, (Scenario.catalog 5),
      (mkCartItem "M1" 2), Scenario.M1, "S2".
    eexists. vm_compute. repeat split; try reflexivity; discriminate.
Qed.

Lemma place_success_totals_witness :
  exists order,
    doc (fst (place Scenario.vendor "O1" Scenario.cart (Scenario.catalog 5)))
      = OrderDoc "O1" order /\
    orders Scenario.placed !! "O1" = Some order /\
    Order.deliveryFee order = 50%float /\
    Order.subtotal order = items_total (Order.items order) /\
    Order.totalAmount order
    = (Order.subtotal order + Order.deliveryFee order)%float /\
    Order.status order = "pending".
Proof.
  apply (place_success_totals Scenario.vendor "O1" Scenario.cart (Scenario.catalog 5)).
  - vm_compute. reflexivity.
  - vm_compute. reflexivity.
Defined.

(** The first placement scenario of the specification: subtotal 90, total
    140, stock(M1) = 8 and stock(M2) = 4. *)
Example place_scenario_success :
  exists order,
    orders Scenario.placed !! "O1" = Some order /\
    Order.subtotal order = 90%float /\ Order.totalAmount order = 140%float /\
    Material.stock <$> materials Scenario.placed !! "M1" = Some 8 /\
    Material.stock <$> materials Scenario.placed !! "M2" = Some 4.
Proof.
  eexists. vm_compute. repeat split; reflexivity.
Qed.

(** Decimal prices.  Three lines of one unit at 0.1, 0.2 and 0.3 are stored
    with the subtotal (0.1 + 0.2) + 0.3, the sum the loop takes, which among
    the Numbers is not 0.1 + (0.2 + 0.3); the total is that subtotal plus
    50. *)
Example place_decimal_prices :
  let db :=
    mkDb
      (<["A" := Material.mk "S1" "Salt" (Scenario.tenths 1) "kg" 10 true]>
         (<["B" := Material.mk "S1" "Sugar" (Scenario.tenths 2) "kg" 10 true]>
            (<["C" := Material.mk "S1" "Flour" (Scenario.tenths 3) "kg" 10 true]>
               ∅)))
      ∅ [] Scenario.accounts in
  let body :=
    mkPlaceBody (Some "S1")
      (Some [mkCartItem "A" 1; mkCartItem "B" 1; mkCartItem "C" 1])
      (Some "12 Market Road") in
  exists order,
    fst (place Scenario.vendor "O1" body db)
    = mkReply 201 "Order placed successfully" (OrderDoc "O1" order) /\
    Order.subtotal order
    = (Scenario.tenths 1 + Scenario.tenths 2 + Scenario.tenths 3)%float /\
    Order.subtotal order = items_total (Order.items order) /\
    (Order.subtotal order
     =? Scenario.tenths 1 + (Scenario.tenths 2 + Scenario.tenths 3))%float = false /\
    Order.totalAmount order = (Order.subtotal order + 50)%float.
Proof.
  eexists. vm_compute. repeat split; reflexivity.
Qed.

(** * Order state machine *)

Lemma truthy_nonempty (s : string) : truthy s = true <-> s <> "".
Proof.
  unfold truthy. rewrite negb_true_iff. split.
  - intros H ->. discriminate.
  - intros H. destruct (String.eqb_spec s ""); [contradiction | reflexivity].
Qed.

#[local] Arguments String.eqb : simpl never.

(** The table of the code and the table of the specification agree. *)
Lemma validTransitions_legal (current requested : string) (allowed : list string) :
  property validTransitions current = Some allowed ->
  (includes allowed requested = true <-> legal_transition current requested).
Proof.
  unfold validTransitions. simpl. intros H.
  repeat match type of H with
  | (if String.eqb ?k current then _ else _) = _ =>
    destruct (String.eqb_spec k current) as [<-|?]; cbn iota in H;
      [injection H as <- | ]
  end; try discriminate; unfold includes; simpl.
  all: revert requested; intros req.
  all: split;
    [ intros Hin;
      repeat match type of Hin with
      | (String.eqb ?x ?k || _) = true =>
        destruct (String.eqb_spec x k) as [Heq|?];
          [rewrite Heq; constructor|simpl in Hin]
      end; discriminate
    | intros Hl; inversion Hl; subst; try reflexivity; try congruence ].
Qed.

Lemma property_status_enum (current : string) :
  In current Order.status_enum ->
  exists allowed, property validTransitions current = Some allowed.
Proof.
  simpl. intros [<-|[<-|[<-|[<-|[<-|[]]]]]]; eexists; reflexivity.
Qed.

#[local] Arguments property : simpl never.
#[local] Arguments includes : simpl never.
#[local] Arguments validate_Order : simpl never.
#[local] Arguments assign_update : simpl never.

Section StatusProofs.

Variable Date_parse : string -> JsDate.

(** The handler always takes one of its paths. *)
Lemma update_status_run (user : User.t) (orderId : ObjectId)
    (body : StatusBody) (now : Z) (db : Db) :
  update_status_outcome Date_parse user orderId body now db
    (fst (update_status Date_parse user orderId body now db))
    (snd (update_status Date_parse user orderId body now db)).
Proof.
  unfold update_status, try_catch, update_status_body.
  destruct (sb_status body) as [status|] eqn:Hst; simpl;
    [|apply Status_required; rewrite Hst; reflexivity].
  destruct (truthy status) eqn:Htr; simpl;
    [|apply Status_required; rewrite Hst; exact Htr].
  unfold Order_findOne. unfold_act.
  destruct (orders db !! orderId) as [order|] eqn:Hfind; simpl;
    [|eapply Status_not_found; eauto; intros o Ho; congruence].
  destruct (String.eqb_spec (Order.supplierId order) (User._id user)) as [Hown|Hown];
    simpl;
    [|eapply Status_not_found; eauto; intros o Ho; congruence].
  destruct (property validTransitions (Order.status order)) as [allowed|] eqn:Hprop;
    simpl; [|eapply Status_unknown_state; eauto].
  destruct (includes allowed status) eqn:Hinc; simpl;
    [|eapply Status_illegal; eauto].
  unfold Order_save. unfold_act.
  destruct (validate_Order (assign_update Date_parse order status body now)) eqn:Hval;
    simpl.
  - eapply Status_updated; eauto.
  - eapply Status_invalid; eauto.
Qed.

Lemma update_status_inv (user : User.t) (orderId : ObjectId)
    (body : StatusBody) (now : Z) (db db' : Db) (r : Reply) :
  update_status Date_parse user orderId body now db = (r, db') ->
  update_status_outcome Date_parse user orderId body now db r db'.
Proof.
  intros H. pose proof (update_status_run user orderId body now db) as Hrun.
  rewrite H in Hrun. exact Hrun.
Qed.

End StatusProofs.


Section StatusClaims.

Variable Date_parse : string -> JsDate.

(** Claim C3.  A transition succeeds only along a row of the legal
    transition table (pending to confirmed or cancelled, confirmed to
    out_for_delivery or cancelled, out_for_delivery to delivered); from
    delivered and from cancelled nothing succeeds; and a requested status
    outside the row of the current status of an order of the acting
    supplier is answered, with nothing written, by the message that states
    the current and the requested status. *)
Theorem update_status_legal_only (user : User.t) (orderId : ObjectId)
    (body : StatusBody) (now : Z) (db db' : Db) (r : Reply) :
  update_status Date_parse user orderId body now db = (r, db') ->
  (code r = 200 ->
   exists order status,
     orders db !! orderId = Some order /\ sb_status body = Some status /\
     legal_transition (Order.status order) status) /\
  (forall order,
     orders db !! orderId = Some order ->
     Order.status order = "delivered" \/ Order.status order = "cancelled" ->
     code r <> 200) /\
  (forall order status,
     orders db !! orderId = Some order ->
     Order.supplierId order = User._id user ->
     In (Order.status order) Order.status_enum ->
     sb_status body = Some status -> status <> "" ->
     ~ legal_transition (Order.status order) status ->
     r = json 400 ("Cannot transition from " +:+ Order.status order
                   +:+ " to " +:+ status) /\
     db' = db).
Proof.
  intros Hrun. apply update_status_inv in Hrun.
  split; [|split].
  - intros Hcode.
    destruct Hrun; try discriminate Hcode.
    exists order, status. repeat split; try assumption.
    eapply validTransitions_legal; eassumption.
  - intros order Hfind Hterminal Hcode.
    destruct Hrun as [| | | | |status order' allowed Hst Htr Hfind' Hown Hprop Hinc Hval];
      try discriminate Hcode.
    assert (order' = order) as -> by congruence.
    assert (legal_transition (Order.status order) status) as Hlegal
      by (eapply validTransitions_legal; eassumption).
    destruct Hterminal as [Ht | Ht]; rewrite Ht in Hlegal; inversion Hlegal.
  - intros order status Hfind Hown Henum Hst Hne Hillegal.
    destruct Hrun as
      [Hreq
      |status' Hst' Htr' Hnone
      |status' order' Hst' Htr' Hfind' Hown' Hprop
      |status' order' allowed Hst' Htr' Hfind' Hown' Hprop Hinc
      |status' order' allowed Hst' Htr' Hfind' Hown' Hprop Hinc Hval
      |status' order' allowed Hst' Htr' Hfind' Hown' Hprop Hinc Hval].
    + rewrite Hst in Hreq. simpl in Hreq.
      apply truthy_nonempty in Hne. congruence.
    + exfalso. eapply Hnone; eassumption.
    + assert (order' = order) as -> by congruence.
      destruct (property_status_enum _ Henum) as [allowed Hallowed]. congruence.
    + assert (order' = order) as -> by congruence.
      assert (status' = status) as -> by congruence.
      split; reflexivity.
    + assert (order' = order) as -> by congruence.
      assert (status' = status) as -> by congruence.
      exfalso. apply Hillegal. eapply validTransitions_legal; eassumption.
    + assert (order' = order) as -> by congruence.
      assert (status' = status) as -> by congruence.
      exfalso. apply Hillegal. eapply validTransitions_legal; eassumption.
Qed.

(** The handler writes neither the catalog, nor the reviews, nor the
    users. *)
Lemma update_status_frame (user : User.t) (orderId : ObjectId)
    (body : StatusBody) (now : Z) (db db' : Db) (r : Reply) :
  update_status Date_parse user orderId body now db = (r, db') ->
  materials db' = materials db /\ reviews db' = reviews db /\ users db' = users db.
Proof.
  intros Hrun. apply update_status_inv in Hrun.
  destruct Hrun; repeat split; reflexivity.
Qed.

Lemma assign_update_status (order : Order.t) (status : string)
    (body : StatusBody) (now : Z) :
  Order.status (assign_update Date_parse order status body now) = status.
Proof.
  unfold assign_update.
  destruct (sb_supplierNotes body) as [notes|];
    [destruct (truthy notes)|];
    (destruct (sb_estimatedDeliveryTime body) as [eta|];
      [destruct (truthy eta)|]);
    destruct (String.eqb status "delivered"); reflexivity.
Qed.

(** Claim C7.  When an order is transitioned to cancelled, the stock of
    every material that its item snapshots reference is what it was before
    the transition (the whole catalog is): nothing is restocked. *)
Theorem cancel_keeps_stock (user : User.t) (orderId : ObjectId)
    (body : StatusBody) (now : Z) (db db' : Db) (r : Reply) (order : Order.t) :
  update_status Date_parse user orderId body now db = (r, db') ->
  code r = 200 ->
  sb_status body = Some "cancelled" ->
  orders db !! orderId = Some order ->
  (Order.status <$> orders db' !! orderId) = Some "cancelled" /\
  materials db' = materials db /\
  forall it, In it (Order.items order) ->
    Material.stock <$> materials db' !! OrderItem.materialId it
    = Material.stock <$> materials db !! OrderItem.materialId it.
Proof.
  intros Hrun Hcode Hcancel Hfind.
  destruct (update_status_frame _ _ _ _ _ _ _ Hrun) as (Hm & _ & _).
  apply update_status_inv in Hrun.
  destruct Hrun as [| | | | |status order' allowed Hst Htr Hfind' Hown Hprop Hinc Hval];
    try discriminate Hcode.
  assert (status = "cancelled") as -> by congruence.
  split; [|split].
  - simpl. rewrite lookup_insert_eq. simpl.
    rewrite assign_update_status. reflexivity.
  - exact Hm.
  - intros it _. rewrite Hm. reflexivity.
Qed.

(** Claim C8.  On every successful transition the stored (and returned)
    order has the requested status; its supplier notes are the notes of the
    request when notes are provided and the former notes otherwise; its
    estimated delivery time is the date made from the eta of the request
    when an eta is provided and the former one otherwise; and when the new
    status is delivered its actual delivery time is the current time (and
    the former one otherwise).  Provided is what the guards of the handler
    test: the field is present and not the empty string. *)
Theorem update_status_success_fields (user : User.t) (orderId : ObjectId)
    (body : StatusBody) (now : Z) (db db' : Db) (r : Reply) :
  update_status Date_parse user orderId body now db = (r, db') ->
  code r = 200 ->
  exists old new status,
    orders db !! orderId = Some old /\
    sb_status body = Some status /\
    doc r = OrderDoc orderId new /\
    orders db' !! orderId = Some new /\
    Order.status new = status /\
    Order.supplierNotes new =
      (if provided (sb_supplierNotes body) then sb_supplierNotes body
       else Order.supplierNotes old) /\
    Order.estimatedDeliveryTime new =
      (if provided (sb_estimatedDeliveryTime body)
       then Date_parse <$> sb_estimatedDeliveryTime body
       else Order.estimatedDeliveryTime old) /\
    Order.actualDeliveryTime new =
      (if String.eqb status "delivered" then Some (ValidDate now)
       else Order.actualDeliveryTime old).
Proof.
  intros Hrun Hcode. apply update_status_inv in Hrun.
  destruct Hrun as [| | | | |status order allowed Hst Htr Hfind Hown Hprop Hinc Hval];
    try discriminate Hcode.
  exists order, (assign_update Date_parse order status body now), status.
  split; [exact Hfind|]. split; [exact Hst|]. split; [reflexivity|].
  split; [simpl; apply lookup_insert_eq|].
  unfold assign_update, provided.
  destruct (sb_supplierNotes body) as [notes|];
    [destruct (truthy notes)|];
    (destruct (sb_estimatedDeliveryTime body) as [eta|];
      [destruct (truthy eta)|]);
    destruct (String.eqb status "delivered");
    repeat split; reflexivity.
Qed.

(** Claim C6.  The transition is for the supplier who owns the order only: it
    succeeds only on an order whose supplier is the actor; every invocation
    of it, that is every request that names a status to move to, fails with
    "Order not found or unauthorized", and writes nothing, when the order
    does not exist or the actor is not its supplier (a request that names no
    status asks for no transition and is turned down with "Status is
    required" before any order is looked up); and behind the role gate an
    actor with the vendor role is refused with an AuthorizationError before
    the handler runs. *)
Theorem update_status_owner_only (user : User.t) (orderId : ObjectId)
    (body : StatusBody) (now : Z) (db : Db) :
  (code (fst (update_status Date_parse user orderId body now db)) = 200 ->
   exists order,
     orders db !! orderId = Some order /\
     Order.supplierId order = User._id user) /\
  (provided (sb_status body) = true ->
   (forall order, orders db !! orderId = Some order ->
                  Order.supplierId order <> User._id user) ->
   update_status Date_parse user orderId body now db
   = (json 404 "Order not found or unauthorized", db)) /\
  (provided (sb_status body) = false ->
   update_status Date_parse user orderId body now db
   = (json 400 "Status is required", db)) /\
  (User.role user = "vendor" ->
   route_update_status Date_parse user orderId body now db
   = (AuthorizationError, db)).
Proof.
  pose proof (update_status_run Date_parse user orderId body now db) as Hrun.
  destruct (update_status Date_parse user orderId body now db) as [r db'] eqn:Heq.
  simpl in Hrun.
  split; [|split; [|split]].
  - intros Hcode. destruct Hrun; try discriminate Hcode. eauto.
  - intros Hprov Hnot.
    destruct Hrun as
      [Hreq
      |status' Hst' Htr' Hnone
      |status' order' Hst' Htr' Hfind' Hown' Hprop
      |status' order' allowed Hst' Htr' Hfind' Hown' Hprop Hinc
      |status' order' allowed Hst' Htr' Hfind' Hown' Hprop Hinc Hval
      |status' order' allowed Hst' Htr' Hfind' Hown' Hprop Hinc Hval];
      try reflexivity; try congruence;
      exfalso; eapply Hnot; eassumption.
  - intros Hprov.
    destruct Hrun as
      [Hreq
      |status' Hst' Htr' Hnone
      |status' order' Hst' Htr' Hfind' Hown' Hprop
      |status' order' allowed Hst' Htr' Hfind' Hown' Hprop Hinc
      |status' order' allowed Hst' Htr' Hfind' Hown' Hprop Hinc Hval
      |status' order' allowed Hst' Htr' Hfind' Hown' Hprop Hinc Hval];
      try reflexivity;
      rewrite Hst' in Hprov; simpl in Hprov; congruence.
  - intros Hrole. unfold route_update_status, requireRole.
    rewrite Hrole. reflexivity.
Qed.

End StatusClaims.

(** * Reviews and the supplier rating *)

(** [updateSupplierRating] never throws and never answers, and writes the
    users only. *)
Lemma updateSupplierRating_in_frame (scope : list string) (supplierId : ObjectId)
    (db : Db) :
  exists db',
    updateSupplierRating_in scope supplierId db = (Next tt, db') /\
    materials db' = materials db /\ orders db' = orders db /\
    reviews db' = reviews db.
Proof.
  unfold updateSupplierRating_in, try_log, identifier, Review_aggregate,
    User_findByIdAndUpdate.
  unfold_act.
  destruct (includes scope "mongoose"); [|exists db; auto].
  destruct (List.filter _ (reviews db)) as [|rv matched];
    [exists db; auto|].
  destruct (users db !! supplierId) as [u|]; [|exists db; auto].
  eexists. split; [reflexivity|]. auto.
Qed.

(** In the module as the repository has it, [mongoose] is not bound: the
    helper catches the ReferenceError and leaves the database as it was. *)
Lemma updateSupplierRating_noop (supplierId : ObjectId) (db : Db) :
  updateSupplierRating supplierId db = (Next tt, db).
Proof. reflexivity. Qed.

Lemma sum_ratings_map (rs : list Review.t) :
  fold_right Z.add 0 (map Review.rating rs) = sum_ratings rs.
Proof.
  induction rs as [|r rs IH]; simpl; [reflexivity | rewrite IH; reflexivity].
Qed.

(** With [mongoose] bound, the helper writes the mean of the ratings of the
    supplier, rounded to one decimal, and their number. *)
Lemma updateSupplierRating_in_bound (scope : list string) (supplierId : ObjectId)
    (db : Db) (u : User.t) :
  includes scope "mongoose" = true ->
  users db !! supplierId = Some u ->
  ratings_of supplierId db <> [] ->
  users (snd (updateSupplierRating_in scope supplierId db)) !! supplierId
  = Some (User.set_rating u (mean_round1 (ratings_of supplierId db))
            (Z.of_nat (length (ratings_of supplierId db)))).
Proof.
  intros Hscope Hu Hne.
  unfold updateSupplierRating_in, try_log, identifier, Review_aggregate,
    User_findByIdAndUpdate, ratings_of in *.
  unfold_act. rewrite Hscope.
  destruct (List.filter _ (reviews db)) as [|rv matched] eqn:Hf;
    [contradiction Hne; reflexivity|].
  rewrite Hu. cbn [fst snd users with_users]. rewrite lookup_insert_eq.
  unfold mean_round1. rewrite length_map, sum_ratings_map. reflexivity.
Qed.

Lemma find_orderId_none (orderId : ObjectId) (rs : list Review.t) :
  List.find (fun r => String.eqb (Review.orderId r) orderId) rs = None ->
  (forall r, In r rs -> Review.orderId r <> orderId) /\
  existsb (fun r' => String.eqb (Review.orderId r') orderId) rs = false.
Proof.
  intros Hnone. split.
  - intros r Hin Heq.
    pose proof (find_none _ _ Hnone r Hin) as Hr. simpl in Hr.
    rewrite Heq, String.eqb_refl in Hr. discriminate.
  - destruct (existsb _ rs) eqn:Hex; [|reflexivity].
    apply existsb_exists in Hex as (r & Hin & Hr).
    pose proof (find_none _ _ Hnone r Hin) as Hr'. simpl in Hr'. congruence.
Qed.

(** The handler always takes one of its paths. *)
Lemma add_review_run (scope : list string) (user : User.t) (body : ReviewBody)
    (db : Db) :
  add_review_outcome scope user body db
    (fst (add_review_in scope user body db))
    (snd (add_review_in scope user body db)).
Proof.
  unfold add_review_in, try_catch, add_review_body.
  destruct (rb_orderId body) as [orderId|] eqn:Ho;
    [|apply Review_fields_required; rewrite Ho; reflexivity].
  destruct (rb_supplierId body) as [supplierId|] eqn:Hs;
    [|apply Review_fields_required; rewrite Ho, Hs; simpl;
      destruct (truthy orderId); reflexivity].
  destruct (rb_rating body) as [rating|] eqn:Hr;
    [|apply Review_fields_required; rewrite Ho, Hs, Hr; simpl;
      destruct (truthy orderId), (truthy supplierId); reflexivity].
  destruct (truthy orderId) eqn:Hto; cbn [negb orb];
    [|apply Review_fields_required; rewrite Ho, Hs, Hr; simpl;
      rewrite Hto; reflexivity].
  destruct (truthy supplierId) eqn:Hts; cbn [negb orb];
    [|apply Review_fields_required; rewrite Ho, Hs, Hr; simpl;
      rewrite Hto, Hts; reflexivity].
  destruct (rating_given (Some rating)) eqn:Hrg; cbn [negb];
    [|apply Review_fields_required; rewrite Ho, Hs, Hr;
      unfold provided; rewrite Hto, Hts, Hrg; reflexivity].
  assert (rating <> 0) as Hr0.
  { simpl in Hrg. apply negb_true_iff, Z.eqb_neq in Hrg. exact Hrg. }
  unfold Order_findOne, Review_findOne. unfold_act.
  destruct (orders db !! orderId) as [order|] eqn:Hfind; cbn [fst snd];
    [|eapply Review_not_eligible; eauto; intros o Habs; congruence].
  destruct (String.eqb_spec (Order.vendorId order) (User._id user)) as [Hv|Hv];
    cbn [andb];
    [|eapply Review_not_eligible; eauto; intros o Ho' [Hv' _]; cbn [snd] in Ho'; congruence].
  destruct (String.eqb_spec (Order.status order) "delivered") as [Hd|Hd];
    [|eapply Review_not_eligible; eauto; intros o Ho' [_ Hd']; cbn [snd] in Ho'; congruence].
  destruct (List.find _ (reviews db)) as [existing|] eqn:Hex.
  - apply find_some in Hex as [Hin Heq]. apply String.eqb_eq in Heq.
    eapply Review_exists; eauto.
  - apply find_orderId_none in Hex as [Hall Hexb].
    unfold Review_save. unfold_act.
    destruct (validate_Review _) eqn:Hval; cbn [negb];
      [|eapply Review_invalid; eauto].
    cbn [Review.orderId]. rewrite Hexb.
    destruct (updateSupplierRating_in_frame scope supplierId
                (with_reviews db (reviews db ++ [Review.mk (User._id user) supplierId
                   orderId rating (rb_comment body) (rb_categories body)])%list))
      as (db1 & Hupd & _).
    rewrite Hupd. cbn [fst snd].
    replace db1 with (snd (updateSupplierRating_in scope supplierId
                (with_reviews db (reviews db ++ [Review.mk (User._id user) supplierId
                   orderId rating (rb_comment body) (rb_categories body)])%list)))
      by (rewrite Hupd; reflexivity).
    eapply Review_added; eauto.
Qed.

Lemma add_review_inv (scope : list string) (user : User.t) (body : ReviewBody)
    (db db' : Db) (r : Reply) :
  add_review_in scope user body db = (r, db') ->
  add_review_outcome scope user body db r db'.
Proof.
  intros H. pose proof (add_review_run scope user body db) as Hrun.
  rewrite H in Hrun. exact Hrun.
Qed.

(** Claim C5.  A review submission succeeds only when the referenced order
    exists, belongs to the submitting vendor and is delivered, and no review
    of that order is stored yet.  After a successful submission, every
    further submission that names the same order fails and leaves the
    database, the first review included, as it was; coming from the same
    vendor with its required fields present, it fails with the reply "Review
    already exists for this order", the Conflict of the specification.  The
    statement holds whatever the module binds, so also for the route of the
    repository, [add_review]. *)
Theorem add_review_once (scope : list string) (user : User.t) (body : ReviewBody)
    (db db' : Db) (r : Reply) :
  add_review_in scope user body db = (r, db') ->
  code r = 201 ->
  (exists orderId order,
     rb_orderId body = Some orderId /\
     orders db !! orderId = Some order /\
     Order.vendorId order = User._id user /\
     Order.status order = "delivered" /\
     (forall rv, In rv (reviews db) -> Review.orderId rv <> orderId)) /\
  (forall scope2 user2 body2,
     rb_orderId body2 = rb_orderId body ->
     code (fst (add_review_in scope2 user2 body2 db')) = 400 /\
     snd (add_review_in scope2 user2 body2 db') = db' /\
     (User._id user2 = User._id user ->
      provided (rb_supplierId body2) = true ->
      rating_given (rb_rating body2) = true ->
      fst (add_review_in scope2 user2 body2 db')
      = json 400 "Review already exists for this order")).
Proof.
  intros Hrun Hcode. apply add_review_inv in Hrun.
  destruct Hrun as
    [| | | |orderId supplierId rating order Ho Hs Hr Hto Hts Hr0 Hfind Hv Hd Hnone
            review Hval];
    try discriminate Hcode.
  split; [exists orderId, order; auto|].
  destruct (updateSupplierRating_in_frame scope supplierId
              (with_reviews db (reviews db ++ [review])%list))
    as (db1 & Hupd & _ & Horders & Hreviews).
  rewrite Hupd. cbn [snd]. cbn [orders reviews with_reviews] in Horders, Hreviews.
  assert (In review (reviews db1)) as Hstored
    by (rewrite Hreviews; apply in_or_app; right; left; reflexivity).
  intros scope2 user2 body2 Hsame. rewrite Ho in Hsame.
  pose proof (add_review_run scope2 user2 body2 db1) as Hrun2.
  destruct (add_review_in scope2 user2 body2 db1) as [r2 db2]. cbn [fst snd] in *.
  destruct Hrun2 as
    [Hreq
    |orderId2 supplierId2 rating2 Ho2 Hs2 Hr2 Hnot
    |orderId2 supplierId2 rating2 order2 existing Ho2 Hs2 Hr2 Hfind2 Hv2 Hd2 Hin2 Heq2
    |orderId2 supplierId2 rating2 order2 Ho2 Hs2 Hr2 Hfind2 Hv2 Hd2 Hnone2 Hval2
    |orderId2 supplierId2 rating2 order2 Ho2 Hs2 Hr2 Hto2 Hts2 Hr02 Hfind2 Hv2 Hd2
       Hnone2 review2 Hval2].
  - repeat split. intros Hsame_vendor Hps Hrg.
    rewrite Hsame, Hps, Hrg in Hreq. simpl in Hreq. rewrite Hto in Hreq.
    discriminate.
  - repeat split. intros Hsame_vendor _ _. exfalso.
    assert (orderId2 = orderId) as -> by congruence.
    apply (Hnot order); [rewrite Horders; exact Hfind|].
    split; [congruence | exact Hd].
  - repeat split.
  - exfalso. assert (orderId2 = orderId) as -> by congruence.
    apply (Hnone2 review Hstored). reflexivity.
  - exfalso. assert (orderId2 = orderId) as -> by congruence.
    apply (Hnone2 review Hstored). reflexivity.
Qed.

Lemma add_review_once_witness :
  let first := add_review Scenario.vendor (Scenario.review_of "O1" "S1" 5)
                 Scenario.delivered3 in
  let second := add_review Scenario.vendor (Scenario.review_of "O1" "S1" 2)
                  (snd first) in
  code (fst first) = 201 /\
  fst second = json 400 "Review already exists for this order" /\
  snd second = snd first.
Proof.
  cbv zeta.
  destruct (add_review_once reviews_js_scope Scenario.vendor
              (Scenario.review_of "O1" "S1" 5) Scenario.delivered3
              (snd (add_review Scenario.vendor (Scenario.review_of "O1" "S1" 5)
                      Scenario.delivered3))
              (fst (add_review Scenario.vendor (Scenario.review_of "O1" "S1" 5)
                      Scenario.delivered3)))
    as [_ Hsecond].
  - vm_compute. reflexivity.
  - vm_compute. reflexivity.
  - destruct (Hsecond reviews_js_scope Scenario.vendor
                (Scenario.review_of "O1" "S1" 2) eq_refl) as (_ & Hsame & Hmsg).
    split; [vm_compute; reflexivity|].
    split; [apply Hmsg; reflexivity | exact Hsame].
Defined.

(** Claim C4.  Reviews with ratings 5, 3 and 4 for supplier S1, each
    submitted successfully through the route of the repository: the three
    reviews are stored, yet the denormalised rating and count of S1 are still
    the initial 0 and 0, not the mean 4.0 and the count 3, because
    [updateSupplierRating] throws on the unbound identifier [mongoose] and
    swallows the error. *)
Theorem three_reviews_rating_not_updated :
  let db := Scenario.three_reviews reviews_js_scope in
  ratings_of "S1" db = [5; 3; 4] /\
  User.rating <$> users db !! "S1" = Some (0 : Q) /\
  User.totalRatings <$> users db !! "S1" = Some 0 /\
  users db = users Scenario.delivered3.
Proof.
  vm_compute. repeat split; reflexivity.
Qed.

(** The same three submissions in a module that binds [mongoose]: the mean
    rounded to one decimal and the count, as the helper is written to
    compute them. *)
Example three_reviews_rating_when_bound :
  let db := Scenario.three_reviews ("mongoose" :: reviews_js_scope) in
  ratings_of "S1" db = [5; 3; 4] /\
  User.rating <$> users db !! "S1" = Some (mean_round1 [5; 3; 4]) /\
  Qeq (mean_round1 [5; 3; 4]) (4 # 1) /\
  User.totalRatings <$> users db !! "S1" = Some 3.
Proof.
  vm_compute. repeat split; reflexivity.
Qed.

(** Claim C10.  A review of the delivered order O1, an order of the vendor
    with supplier S1, that declares supplier S2: the submission succeeds and
    the review is stored against S2, the declared supplier; the rating and the
    count of S2 are not recomputed from it (they stay 0 and 0), for the
    ReferenceError in [updateSupplierRating]. *)
Theorem review_for_other_supplier :
  let body := Scenario.review_of "O1" "S2" 5 in
  let res := add_review Scenario.vendor body Scenario.delivered3 in
  Order.supplierId <$> orders Scenario.delivered3 !! "O1" = Some "S1" /\
  Order.vendorId <$> orders Scenario.delivered3 !! "O1" = Some "V1" /\
  Order.status <$> orders Scenario.delivered3 !! "O1" = Some "delivered" /\
  code (fst res) = 201 /\
  reviews (snd res) = [Review.mk "V1" "S2" "O1" 5 None None] /\
  ratings_of "S2" (snd res) = [5] /\
  User.rating <$> users (snd res) !! "S2" = Some (0 : Q) /\
  User.totalRatings <$> users (snd res) !! "S2" = Some 0.
Proof.
  vm_compute. repeat split; reflexivity.
Qed.

(** The same submission in a module that binds [mongoose]: the rating and
    count of the declared supplier S2 are recomputed from the review. *)
Example review_for_other_supplier_when_bound :
  let body := Scenario.review_of "O1" "S2" 5 in
  let res := add_review_in ("mongoose" :: reviews_js_scope) Scenario.vendor body
               Scenario.delivered3 in
  code (fst res) = 201 /\
  User.rating <$> users (snd res) !! "S2" = Some (mean_round1 [5]) /\
  Qeq (mean_round1 [5]) (5 # 1) /\
  User.totalRatings <$> users (snd res) !! "S2" = Some 1.
Proof.
  vm_compute. repeat split; reflexivity.
Qed.

(** The route of the repository never writes the users. *)
Lemma add_review_users_unchanged (user : User.t) (body : ReviewBody) (db : Db) :
  users (snd (add_review user body db)) = users db.
Proof.
  pose proof (add_review_run reviews_js_scope user body db) as Hrun.
  unfold add_review.
  destruct (add_review_in reviews_js_scope user body db) as [r db'].
  cbn [fst snd] in *.
  destruct Hrun; reflexivity.
Qed.

(** * The claims at concrete inputs *)

Lemma update_status_legal_only_witness :
  let body := mkStatusBody (Some "delivered") None None in
  let res := update_status Scenario.parse Scenario.supplier1 "O1" body 0
               Scenario.placed in
  fst res = json 400 "Cannot transition from pending to delivered" /\
  snd res = Scenario.placed.
Proof.
  cbv zeta.
  destruct (update_status_legal_only Scenario.parse Scenario.supplier1 "O1"
              (mkStatusBody (Some "delivered") None None) 0 Scenario.placed
              (snd (update_status Scenario.parse Scenario.supplier1 "O1"
                      (mkStatusBody (Some "delivered") None None) 0 Scenario.placed))
              (fst (update_status Scenario.parse Scenario.supplier1 "O1"
                      (mkStatusBody (Some "delivered") None None) 0 Scenario.placed)))
    as (_ & _ & Hillegal).
  - vm_compute. reflexivity.
  - apply (Hillegal Scenario.placed_order "delivered").
    + vm_compute. reflexivity.
    + reflexivity.
    + simpl. auto.
    + reflexivity.
    + discriminate.
    + intros Hlegal. inversion Hlegal.
Defined.

Lemma cancel_keeps_stock_witness :
  let body := mkStatusBody (Some "cancelled") None None in
  let res := update_status Scenario.parse Scenario.supplier1 "O1" body 0
               Scenario.placed in
  Order.status <$> orders (snd res) !! "O1" = Some "cancelled" /\
  materials (snd res) = materials Scenario.placed /\
  forall it, In it (Order.items Scenario.placed_order) ->
    Material.stock <$> materials (snd res) !! OrderItem.materialId it
    = Material.stock <$> materials Scenario.placed !! OrderItem.materialId it.
Proof.
  cbv zeta.
  apply (cancel_keeps_stock Scenario.parse Scenario.supplier1 "O1"
           (mkStatusBody (Some "cancelled") None None) 0 Scenario.placed
           (snd (update_status Scenario.parse Scenario.supplier1 "O1"
                   (mkStatusBody (Some "cancelled") None None) 0 Scenario.placed))
           (fst (update_status Scenario.parse Scenario.supplier1 "O1"
                   (mkStatusBody (Some "cancelled") None None) 0 Scenario.placed))).
  - vm_compute. reflexivity.
  - vm_compute. reflexivity.
  - reflexivity.
  - vm_compute. reflexivity.
Defined.

(** After placement and cancellation the stock stays at 8 and 4, not the 10
    and 5 it was before the order. *)
Example cancel_scenario_stock :
  let body := mkStatusBody (Some "cancelled") None None in
  let res := update_status Scenario.parse Scenario.supplier1 "O1" body 0
               Scenario.placed in
  code (fst res) = 200 /\
  Material.stock <$> materials (snd res) !! "M1" = Some 8 /\
  Material.stock <$> materials (snd res) !! "M2" = Some 4.
Proof.
  vm_compute. repeat split; reflexivity.
Qed.

Lemma update_status_success_fields_witness :
  let body := mkStatusBody (Some "confirmed") (Some "Packed by noon")
                (Some "2025-01-01T00:00:00.000Z") in
  let res := update_status Scenario.parse Scenario.supplier1 "O1" body 7
               Scenario.placed in
  exists old new status,
    orders Scenario.placed !! "O1" = Some old /\
    sb_status body = Some status /\
    doc (fst res) = OrderDoc "O1" new /\
    orders (snd res) !! "O1" = Some new /\
    Order.status new = status /\
    Order.supplierNotes new =
      (if provided (sb_supplierNotes body) then sb_supplierNotes body
       else Order.supplierNotes old) /\
    Order.estimatedDeliveryTime new =
      (if provided (sb_estimatedDeliveryTime body)
       then Scenario.parse <$> sb_estimatedDeliveryTime body
       else Order.estimatedDeliveryTime old) /\
    Order.actualDeliveryTime new =
      (if String.eqb status "delivered" then Some (ValidDate 7)
       else Order.actualDeliveryTime old).
Proof.
  cbv zeta.
  apply (update_status_success_fields Scenario.parse Scenario.supplier1 "O1"
           (mkStatusBody (Some "confirmed") (Some "Packed by noon")
              (Some "2025-01-01T00:00:00.000Z")) 7 Scenario.placed).
  - vm_compute. reflexivity.
  - vm_compute. reflexivity.
Defined.

(** The fields of that transition, and of a delivery, evaluated. *)
Example update_status_scenario_fields :
  let confirm := mkStatusBody (Some "confirmed") (Some "Packed by noon")
                   (Some "2025-01-01T00:00:00.000Z") in
  let db1 := snd (update_status Scenario.parse Scenario.supplier1 "O1" confirm 7
                    Scenario.placed) in
  let db2 := snd (update_status Scenario.parse Scenario.supplier1 "O1"
                    (mkStatusBody (Some "out_for_delivery") None None) 8 db1) in
  let db3 := snd (update_status Scenario.parse Scenario.supplier1 "O1"
                    (mkStatusBody (Some "delivered") (Some "") None) 9 db2) in
  Order.supplierNotes <$> orders db1 !! "O1" = Some (Some "Packed by noon") /\
  Order.estimatedDeliveryTime <$> orders db1 !! "O1"
    = Some (Some (ValidDate 1735689600000)) /\
  Order.actualDeliveryTime <$> orders db1 !! "O1" = Some None /\
  Order.status <$> orders db3 !! "O1" = Some "delivered" /\
  Order.supplierNotes <$> orders db3 !! "O1" = Some (Some "Packed by noon") /\
  Order.actualDeliveryTime <$> orders db3 !! "O1" = Some (Some (ValidDate 9)).
Proof.
  vm_compute. repeat split; reflexivity.
Qed.

Lemma update_status_owner_only_witness :
  let body := mkStatusBody (Some "confirmed") None None in
  update_status Scenario.parse Scenario.supplier2 "O1" body 0 Scenario.placed
  = (json 404 "Order not found or unauthorized", Scenario.placed) /\
  update_status Scenario.parse Scenario.supplier2 "O1"
    (mkStatusBody None None None) 0 Scenario.placed
  = (json 400 "Status is required", Scenario.placed) /\
  route_update_status Scenario.parse Scenario.vendor "O1" body 0 Scenario.placed
  = (AuthorizationError, Scenario.placed).
Proof.
  cbv zeta.
  destruct (update_status_owner_only Scenario.parse Scenario.supplier2 "O1"
              (mkStatusBody (Some "confirmed") None None) 0 Scenario.placed)
    as (_ & Hnot_owner & _ & _).
  destruct (update_status_owner_only Scenario.parse Scenario.supplier2 "O1"
              (mkStatusBody None None None) 0 Scenario.placed)
    as (_ & _ & Hrequired & _).
  destruct (update_status_owner_only Scenario.parse Scenario.vendor "O1"
              (mkStatusBody (Some "confirmed") None None) 0 Scenario.placed)
    as (_ & _ & _ & Hvendor).
  split; [|split].
  - apply Hnot_owner; [reflexivity|].
    intros order Hfind. vm_compute in Hfind. injection Hfind as <-. discriminate.
  - apply Hrequired. reflexivity.
  - apply Hvendor. reflexivity.
Defined.

(** * The cart of the Materials page *)

Lemma getTotalAmount_app (c1 c2 : list Cart.t) :
  getTotalAmount (c1 ++ c2)
  = fold_left (fun total item =>
                 (total + Cart.unitPrice item * Number_of (Cart.quantity item))%float)
      c2 (getTotalAmount c1).
Proof. apply fold_left_app. Qed.

Lemma find_line_none (id : ObjectId) (cart : list Cart.t) :
  List.find (fun item => String.eqb (Cart.materialId item) id) cart = None <->
  ~ In id (map Cart.materialId cart).
Proof.
  induction cart as [|x cart IH]; simpl; [tauto|].
  destruct (String.eqb_spec (Cart.materialId x) id) as [Heq|Hne].
  - split; [discriminate | intros H; exfalso; apply H; left; exact Heq].
  - rewrite IH. tauto.
Qed.

Lemma map_line_ids (id : ObjectId) (f : Cart.t -> Z) (cart : list Cart.t) :
  map Cart.materialId
    (map (fun item => if String.eqb (Cart.materialId item) id
                      then Cart.set_quantity item (f item) else item) cart)
  = map Cart.materialId cart.
Proof.
  induction cart as [|x cart IH]; simpl; [reflexivity|].
  rewrite IH. destruct (String.eqb (Cart.materialId x) id); reflexivity.
Qed.

Lemma NoDup_map_filter {A B : Type} (f : A -> B) (p : A -> bool) (l : list A) :
  List.NoDup (map f l) -> List.NoDup (map f (List.filter p l)).
Proof.
  induction l as [|x l IH]; simpl; intros Hnd; [constructor|].
  apply List.NoDup_cons_iff in Hnd as [Hx Hl].
  destruct (p x); simpl; [|auto].
  apply List.NoDup_cons_iff. split; [|auto].
  intros Hin. apply Hx. apply in_map_iff in Hin as (y & Hy & Hyin).
  apply filter_In in Hyin as [Hyin _]. apply in_map_iff. eauto.
Qed.

(** The three operations on the cart keep one line per material. *)
Theorem cart_one_line_per_material (cart : list Cart.t) :
  List.NoDup (map Cart.materialId cart) ->
  (forall material quantity,
     List.NoDup (map Cart.materialId (addToCart cart material quantity))) /\
  (forall materialId,
     List.NoDup (map Cart.materialId (removeFromCart cart materialId))) /\
  (forall materialId quantity,
     List.NoDup (map Cart.materialId (updateCartQuantity cart materialId quantity))).
Proof.
  intros Hnd. split; [|split].
  - intros material quantity. unfold addToCart.
    destruct (List.find _ cart) as [existing|] eqn:Hfind.
    + rewrite map_line_ids. exact Hnd.
    + apply find_line_none in Hfind.
      rewrite map_app. simpl. apply List.NoDup_app; [exact Hnd | |].
      * apply List.NoDup_cons; [simpl; tauto | constructor].
      * intros x Hx [<-|[]]. contradiction.
  - intros materialId. unfold removeFromCart. apply NoDup_map_filter. exact Hnd.
  - intros materialId quantity. unfold updateCartQuantity.
    destruct (quantity <=? 0).
    + unfold removeFromCart. apply NoDup_map_filter. exact Hnd.
    + rewrite (map_line_ids materialId (fun _ => quantity)). exact Hnd.
Qed.

Lemma cart_one_line_per_material_witness :
  List.NoDup (map Cart.materialId
           (addToCart [Cart.mk "M1" "Onion" 20 "kg" 2 "S1" "Fresh Farm"]
              (Listing.mk "M1" "Onion" 25 "kg" "S1" "Asha" (Some "Fresh Farm")) 3)).
Proof.
  apply (cart_one_line_per_material
           [Cart.mk "M1" "Onion" 20 "kg" 2 "S1" "Fresh Farm"]).
  simpl. apply List.NoDup_cons; [simpl; tauto | constructor].
Defined.

Lemma map_line_others (id : ObjectId) (f : Cart.t -> Z) (cart : list Cart.t) :
  removeFromCart
    (map (fun item => if String.eqb (Cart.materialId item) id
                      then Cart.set_quantity item (f item) else item) cart) id
  = removeFromCart cart id.
Proof.
  unfold removeFromCart.
  induction cart as [|x cart IH]; simpl; [reflexivity|].
  destruct (String.eqb (Cart.materialId x) id) eqn:Hx; simpl; rewrite Hx; simpl;
    rewrite IH; reflexivity.
Qed.

Lemma map_line_find (id : ObjectId) (f : Cart.t -> Z) (cart : list Cart.t)
    (line : Cart.t) :
  List.find (fun item => String.eqb (Cart.materialId item) id) cart = Some line ->
  List.find (fun item => String.eqb (Cart.materialId item) id)
    (map (fun item => if String.eqb (Cart.materialId item) id
                      then Cart.set_quantity item (f item) else item) cart)
  = Some (Cart.set_quantity line (f line)).
Proof.
  induction cart as [|x cart IH]; simpl; intros Hfind; [discriminate|].
  destruct (String.eqb (Cart.materialId x) id) eqn:Hx; simpl; rewrite Hx.
  - injection Hfind as <-. reflexivity.
  - apply IH, Hfind.
Qed.

(** Adding a material touches the line of that material only.  When the cart
    has a line for it, the cart keeps its lines in place, and that line its
    price (a price listed since is ignored), with the added quantity on top
    of its own.  When it has none, one line is appended, at the listed price
    and for the supplier of the listing, and the amount of the cart is the
    amount before with one more product added to it. *)
Theorem addToCart_one_line (cart : list Cart.t) (material : Listing.t)
    (quantity : Z) :
  removeFromCart (addToCart cart material quantity) (Listing._id material)
  = removeFromCart cart (Listing._id material) /\
  match List.find (fun item => String.eqb (Cart.materialId item)
                                 (Listing._id material)) cart with
  | Some line =>
    map Cart.materialId (addToCart cart material quantity)
    = map Cart.materialId cart /\
    List.find (fun item => String.eqb (Cart.materialId item) (Listing._id material))
      (addToCart cart material quantity)
    = Some (Cart.set_quantity line (Cart.quantity line + quantity))
  | None =>
    exists line,
      addToCart cart material quantity = (cart ++ [line])%list /\
      Cart.materialId line = Listing._id material /\
      Cart.quantity line = quantity /\
      Cart.unitPrice line = Listing.unitPrice material /\
      Cart.supplierId line = Listing.supplier_id material /\
      getTotalAmount (addToCart cart material quantity)
      = (getTotalAmount cart + Listing.unitPrice material * Number_of quantity)%float
  end.
Proof.
  unfold addToCart.
  destruct (List.find _ cart) as [line|] eqn:Hfind.
  - split; [apply map_line_others|]. split; [apply map_line_ids|].
    apply (map_line_find _ (fun item => Cart.quantity item + quantity)), Hfind.
  - apply find_line_none in Hfind. split.
    + unfold removeFromCart. rewrite List.filter_app. simpl.
      rewrite String.eqb_refl. simpl. rewrite app_nil_r.
      reflexivity.
    + eexists. split; [reflexivity|]. simpl.
      repeat (split; [reflexivity|]). rewrite getTotalAmount_app. reflexivity.
Qed.

(** The amount of the cart is taken anew from its lines each time: with the
    lines A, two units at 0.1, and B, one unit at 0.1, three more units of A
    give the amount 0.1 * 5 + 0.1 * 1, which among the Numbers is not the
    amount before plus 0.1 * 3. *)
Example addToCart_amount_taken_anew :
  let cart := [Cart.mk "A" "Salt" (Scenario.tenths 1) "kg" 2 "S1" "Fresh Farm";
               Cart.mk "B" "Sugar" (Scenario.tenths 1) "kg" 1 "S1" "Fresh Farm"] in
  let listing :=
    Listing.mk "A" "Salt" (Scenario.tenths 1) "kg" "S1" "Asha" (Some "Fresh Farm") in
  getTotalAmount (addToCart cart listing 3)
  = (0 + Scenario.tenths 1 * 5 + Scenario.tenths 1 * 1)%float /\
  (getTotalAmount (addToCart cart listing 3)
   =? getTotalAmount cart + Scenario.tenths 1 * 3)%float = false.
Proof.
  vm_compute. split; reflexivity.
Qed.

(** [updateCartQuantity] touches the line of one material only: a quantity of
    zero or less removes the line, a positive one becomes the quantity of the
    line, and the lines of the other materials stay as they are, in order. *)
Theorem updateCartQuantity_one_line (cart : list Cart.t) (materialId : ObjectId)
    (quantity : Z) :
  (quantity <= 0 ->
   ~ In materialId (map Cart.materialId (updateCartQuantity cart materialId quantity))) /\
  (0 < quantity ->
   map Cart.materialId (updateCartQuantity cart materialId quantity)
   = map Cart.materialId cart /\
   forall item, In item (updateCartQuantity cart materialId quantity) ->
                Cart.materialId item = materialId -> Cart.quantity item = quantity) /\
  List.filter (fun item => negb (String.eqb (Cart.materialId item) materialId))
    (updateCartQuantity cart materialId quantity)
  = List.filter (fun item => negb (String.eqb (Cart.materialId item) materialId)) cart.
Proof.
  unfold updateCartQuantity, removeFromCart.
  destruct (Z.leb_spec quantity 0) as [Hle|Hgt].
  - split; [|split].
    + intros _ Hin. apply in_map_iff in Hin as (item & Hid & Hin).
      apply filter_In in Hin as [_ Hne].
      rewrite Hid, String.eqb_refl in Hne. discriminate.
    + intros Hpos. lia.
    + induction cart as [|x cart IH]; simpl; [reflexivity|].
      destruct (String.eqb (Cart.materialId x) materialId) eqn:Hx; simpl;
        [exact IH | rewrite Hx; simpl; rewrite IH; reflexivity].
  - split; [intros Hle; lia|]. split.
    + intros _. split; [apply (map_line_ids materialId (fun _ => quantity))|].
      intros item Hin Hid. apply in_map_iff in Hin as (x & Hx & _).
      destruct (String.eqb_spec (Cart.materialId x) materialId) as [Heq|Hne].
      * rewrite <- Hx. reflexivity.
      * subst x. contradiction.
    + induction cart as [|x cart IH]; simpl; [reflexivity|].
      destruct (String.eqb (Cart.materialId x) materialId) eqn:Hx; simpl;
        rewrite Hx; simpl; rewrite IH; reflexivity.
Qed.

Lemma updateCartQuantity_one_line_witness :
  let cart := [Cart.mk "M1" "Onion" 20 "kg" 2 "S1" "Fresh Farm";
               Cart.mk "M3" "Salt" 5 "kg" 1 "S2" "Salt Works"] in
  ~ In "M1" (map Cart.materialId (updateCartQuantity cart "M1" 0)) /\
  map Cart.materialId (updateCartQuantity cart "M1" 4) = ["M1"; "M3"].
Proof.
  cbv zeta.
  destruct (updateCartQuantity_one_line
              [Cart.mk "M1" "Onion" 20 "kg" 2 "S1" "Fresh Farm";
               Cart.mk "M3" "Salt" 5 "kg" 1 "S2" "Salt Works"] "M1" 0)
    as (Hremove & _ & _).
  destruct (updateCartQuantity_one_line
              [Cart.mk "M1" "Onion" 20 "kg" 2 "S1" "Fresh Farm";
               Cart.mk "M3" "Salt" 5 "kg" 1 "S2" "Salt Works"] "M1" 4)
    as (_ & Hset & _).
  split; [apply Hremove; lia | apply Hset; lia].
Defined.

(** Quantities in the cart stay at least 1 as long as at least 1 is added at
    a time: removing and updating never leave a line with less. *)
Theorem cart_quantities_positive (cart : list Cart.t) :
  Forall (fun item => 1 <= Cart.quantity item) cart ->
  (forall material quantity, 1 <= quantity ->
     Forall (fun item => 1 <= Cart.quantity item) (addToCart cart material quantity)) /\
  (forall materialId,
     Forall (fun item => 1 <= Cart.quantity item) (removeFromCart cart materialId)) /\
  (forall materialId quantity,
     Forall (fun item => 1 <= Cart.quantity item)
       (updateCartQuantity cart materialId quantity)).
Proof.
  intros Hpos.
  assert (forall materialId,
            Forall (fun item => 1 <= Cart.quantity item)
              (removeFromCart cart materialId)) as Hremove.
  { intros materialId. unfold removeFromCart. apply List.Forall_forall.
    intros item Hin. apply filter_In in Hin as [Hin _].
    revert item Hin. apply List.Forall_forall. exact Hpos. }
  split; [|split; [exact Hremove|]].
  - intros material quantity Hq. unfold addToCart.
    destruct (List.find _ cart).
    + apply List.Forall_forall. intros item Hin.
      apply in_map_iff in Hin as (x & <- & Hx).
      pose proof (proj1 (List.Forall_forall _ _) Hpos x Hx) as Hxpos.
      simpl in Hxpos.
      destruct (String.eqb (Cart.materialId x) (Listing._id material)); simpl; lia.
    + apply List.Forall_app. split; [exact Hpos|].
      constructor; [simpl; lia | constructor].
  - intros materialId quantity. unfold updateCartQuantity.
    destruct (Z.leb_spec quantity 0) as [Hle|Hgt]; [apply Hremove|].
    apply List.Forall_forall. intros item Hin.
    apply in_map_iff in Hin as (x & <- & Hx).
    pose proof (proj1 (List.Forall_forall _ _) Hpos x Hx) as Hxpos.
    simpl in Hxpos.
    destruct (String.eqb (Cart.materialId x) materialId); simpl; lia.
Qed.

Lemma cart_quantities_positive_witness :
  Forall (fun item => 1 <= Cart.quantity item)
    (updateCartQuantity [Cart.mk "M1" "Onion" 20 "kg" 2 "S1" "Fresh Farm"] "M1" (-3)).
Proof.
  apply (cart_quantities_positive [Cart.mk "M1" "Onion" 20 "kg" 2 "S1" "Fresh Farm"]).
  constructor; [simpl; lia | constructor].
Defined.

(** ** Grouping the cart by supplier *)

Lemma lines_of_app (supplierId : ObjectId) (c1 c2 : list Cart.t) :
  lines_of supplierId (c1 ++ c2)
  = (lines_of supplierId c1 ++ lines_of supplierId c2)%list.
Proof.
  unfold lines_of. rewrite List.filter_app, map_app. reflexivity.
Qed.

Lemma lines_of_one (supplierId : ObjectId) (item : Cart.t) :
  lines_of supplierId [item]
  = if String.eqb (Cart.supplierId item) supplierId
    then [mkCartItem (Cart.materialId item) (Cart.quantity item)] else [].
Proof.
  unfold lines_of. simpl.
  destruct (String.eqb (Cart.supplierId item) supplierId); reflexivity.
Qed.

Lemma lines_of_absent (supplierId : ObjectId) (cart : list Cart.t) :
  ~ In supplierId (map Cart.supplierId cart) -> lines_of supplierId cart = [].
Proof.
  unfold lines_of. induction cart as [|x cart IH]; simpl; intros Hnot;
    [reflexivity|].
  destruct (String.eqb_spec (Cart.supplierId x) supplierId) as [Heq|Hne];
    [exfalso; apply Hnot; left; exact Heq|].
  apply IH. tauto.
Qed.

Lemma existsb_key (key : string) (acc : list (string * OrderGroup)) :
  existsb (fun kv => String.eqb (fst kv) key) acc = true <-> In key (map fst acc).
Proof.
  rewrite existsb_exists. split.
  - intros (kv & Hin & Heq). apply String.eqb_eq in Heq. subst key.
    apply in_map. exact Hin.
  - intros Hin. apply in_map_iff in Hin as (kv & <- & Hin).
    exists kv. split; [exact Hin | apply String.eqb_refl].
Qed.

Lemma group_step_grouped (seen : list Cart.t) (acc : list (string * OrderGroup))
    (item : Cart.t) :
  grouped seen acc -> grouped (seen ++ [item]) (group_step acc item).
Proof.
  intros (Hnd & Hgroups & Hcover). unfold group_step.
  set (key := Cart.supplierId item).
  set (acc0 := if existsb (fun kv => String.eqb (fst kv) key) acc then acc
               else (acc ++ [(key, mkOrderGroup key (Cart.supplierName item) [])])%list).
  assert (grouped_before :
            List.NoDup (map fst acc0) /\
            (forall k g, In (k, g) acc0 ->
               og_supplierId g = k /\ og_items g = lines_of k seen) /\
            In key (map fst acc0) /\
            (forall k, In k (map fst acc) -> In k (map fst acc0)) /\
            (forall k, In k (map fst acc0) ->
               k = key \/ In k (map Cart.supplierId seen))).
  { subst acc0. destruct (existsb _ acc) eqn:Hex.
    - apply existsb_key in Hex. repeat split; auto.
      + apply (Hgroups k g H).
      + apply (Hgroups k g H).
      + intros k Hk. right. apply in_map_iff in Hk as ([k' g] & <- & Hin).
        apply (Hgroups k' g Hin).
    - assert (~ In key (map fst acc)) as Hnew.
      { intros Hin. apply existsb_key in Hin. congruence. }
      repeat split.
      + rewrite map_app. apply List.NoDup_app; [exact Hnd | |].
        * apply List.NoDup_cons; [simpl; tauto | constructor].
        * intros k Hk [<-|[]]. contradiction.
      + apply in_app_or in H as [H|[H|[]]];
          [apply (Hgroups k g H) | injection H as <- <-; reflexivity].
      + apply in_app_or in H as [H|[H|[]]]; [apply (Hgroups k g H)|].
        injection H as <- <-. simpl. symmetry. apply lines_of_absent.
        intros Hin. apply Hnew. apply in_map_iff in Hin as (x & Hx & Hxin).
        rewrite <- Hx. apply Hcover. exact Hxin.
      + rewrite map_app. apply in_or_app. right. left. reflexivity.
      + intros k Hk. rewrite map_app. apply in_or_app. left. exact Hk.
      + intros k Hk. rewrite map_app in Hk.
        apply in_app_or in Hk as [Hk|[<-|[]]]; [right|left; reflexivity].
        apply in_map_iff in Hk as ([k' g] & <- & Hin).
        apply (Hgroups k' g Hin). }
  clearbody acc0.
  destruct grouped_before as (Hnd0 & Hgroups0 & Hkey0 & Hsub0 & Hkeys0).
  assert (map fst
            (map (fun kv =>
                    if String.eqb (fst kv) key
                    then (fst kv,
                          mkOrderGroup (og_supplierId (snd kv)) (og_supplierName (snd kv))
                            (og_items (snd kv)
                             ++ [mkCartItem (Cart.materialId item) (Cart.quantity item)])%list)
                    else kv) acc0)
          = map fst acc0) as Hkeys.
  { rewrite map_map. apply map_ext. intros kv.
    destruct (String.eqb (fst kv) key); reflexivity. }
  split; [rewrite Hkeys; exact Hnd0|]. split.
  - intros k g Hin. apply in_map_iff in Hin as ([k0 g0] & Heq & Hin0).
    destruct (Hgroups0 k0 g0 Hin0) as [Hid Hitems].
    simpl in Heq.
    destruct (String.eqb_spec k0 key) as [Hk|Hk]; injection Heq as <- <-.
    + simpl. split; [exact Hid|]. split.
      * rewrite lines_of_app, lines_of_one, Hitems, Hk. fold key.
        rewrite String.eqb_refl. reflexivity.
      * rewrite map_app. apply in_or_app. right. left. symmetry. exact Hk.
    + split; [exact Hid|]. split.
      * rewrite lines_of_app, lines_of_one, Hitems. fold key.
        destruct (String.eqb_spec key k0) as [Hk'|_]; [congruence|].
        rewrite app_nil_r. reflexivity.
      * rewrite map_app. apply in_or_app. left.
        destruct (Hkeys0 k0) as [Hk'|Hk']; [|congruence|exact Hk'].
        apply in_map_iff. exists (k0, g0). split; [reflexivity | exact Hin0].
  - intros x Hx. rewrite Hkeys. apply in_app_or in Hx as [Hx|[<-|[]]].
    + apply Hsub0, Hcover, Hx.
    + exact Hkey0.
Qed.

Lemma fold_group_step_grouped (rest seen : list Cart.t)
    (acc : list (string * OrderGroup)) :
  grouped seen acc -> grouped (seen ++ rest) (fold_left group_step rest acc).
Proof.
  revert seen acc. induction rest as [|item rest IH]; intros seen acc Hg; simpl.
  - rewrite app_nil_r. exact Hg.
  - replace (seen ++ item :: rest)%list with ((seen ++ [item]) ++ rest)%list
      by (rewrite <- app_assoc; reflexivity).
    apply IH, group_step_grouped, Hg.
Qed.

Lemma ordersBySupplier_grouped (cart : list Cart.t) :
  grouped cart (ordersBySupplier cart).
Proof.
  apply (fold_group_step_grouped cart [] []).
  split; [simpl; constructor|]. split; [intros k g []|intros item []].
Qed.

Lemma NoDup_map_Some {A : Type} (l : list A) :
  List.NoDup l -> List.NoDup (map Some l).
Proof.
  induction 1 as [|x l Hx _ IH]; simpl; constructor; [|exact IH].
  intros Hin. apply in_map_iff in Hin as (y & [= ->] & Hy). contradiction.
Qed.

(** Each request of [placeOrder], spelled out. *)
Lemma placeOrder_requests_inv (cart : list Cart.t) (body : PlaceBody) :
  In body (placeOrder_requests cart) ->
  exists supplierId,
    body = mkPlaceBody (Some supplierId) (Some (lines_of supplierId cart))
             (Some "Default delivery address") /\
    In supplierId (map Cart.supplierId cart).
Proof.
  destruct (ordersBySupplier_grouped cart) as (_ & Hgroups & _).
  destruct cart as [|first cart]; [intros []|].
  unfold placeOrder_requests. set (items := first :: cart) in *.
  intros Hin. apply in_map_iff in Hin as (g & <- & Hin).
  apply in_map_iff in Hin as ([k g'] & <- & Hin). simpl.
  destruct (Hgroups k g' Hin) as (-> & -> & Hkey).
  exists k. split; [reflexivity | exact Hkey].
Qed.

Lemma lines_of_present (supplierId : ObjectId) (cart : list Cart.t) :
  In supplierId (map Cart.supplierId cart) -> lines_of supplierId cart <> [].
Proof.
  intros Hkey Hempty. apply in_map_iff in Hkey as (x & Hx & Hxin).
  unfold lines_of in Hempty. apply map_eq_nil in Hempty.
  assert (In x (List.filter
                  (fun item => String.eqb (Cart.supplierId item) supplierId) cart))
    as Hxf by (apply filter_In; split; [exact Hxin | apply String.eqb_eq; exact Hx]).
  rewrite Hempty in Hxf. destruct Hxf.
Qed.

(** The requests of [placeOrder] split the cart by supplier: no two requests
    name the same supplier, each carries exactly the lines of the cart items
    of its supplier, in cart order, and never no line, and every cart item
    goes into the request of its supplier. *)
Theorem placeOrder_requests_partition (cart : list Cart.t) :
  List.NoDup (map pb_supplierId (placeOrder_requests cart)) /\
  (forall body, In body (placeOrder_requests cart) ->
     exists supplierId,
       pb_supplierId body = Some supplierId /\
       pb_items body = Some (lines_of supplierId cart) /\
       lines_of supplierId cart <> [] /\
       pb_deliveryAddress body = Some "Default delivery address") /\
  (forall item, In item cart ->
     exists body, In body (placeOrder_requests cart) /\
                  pb_supplierId body = Some (Cart.supplierId item)).
Proof.
  split; [|split].
  - destruct (ordersBySupplier_grouped cart) as (Hnd & Hgroups & _).
    destruct cart as [|first cart]; [simpl; constructor|].
    unfold placeOrder_requests. set (items := first :: cart) in *.
    rewrite !map_map. simpl.
    assert (map (fun x : string * OrderGroup => Some (og_supplierId (snd x)))
              (ordersBySupplier items)
            = map Some (map fst (ordersBySupplier items))) as ->.
    { rewrite map_map. apply map_ext_in. intros [k g] Hin. simpl.
      destruct (Hgroups k g Hin) as (-> & _). reflexivity. }
    apply NoDup_map_Some, Hnd.
  - intros body Hin.
    destruct (placeOrder_requests_inv cart body Hin) as (supplierId & -> & Hkey).
    exists supplierId. simpl. repeat split. apply lines_of_present, Hkey.
  - intros item Hin.
    destruct (ordersBySupplier_grouped cart) as (_ & Hgroups & Hcover).
    specialize (Hcover item Hin).
    apply in_map_iff in Hcover as ([k g] & Hk & Hkg). simpl in Hk. subst k.
    destruct (Hgroups _ _ Hkg) as (Hid & _).
    destruct cart as [|first cart]; [destruct Hin|].
    unfold placeOrder_requests. set (items := first :: cart) in *.
    eexists. split.
    + apply in_map. apply in_map_iff. exists (Cart.supplierId item, g).
      split; [reflexivity | exact Hkg].
    + simpl. rewrite Hid. reflexivity.
Qed.

(** * Placement and the catalog *)

Lemma set_stock_same (m : Material.t) :
  Material.set_stock m (Material.stock m - 0) = m.
Proof.
  destruct m. unfold Material.set_stock. simpl. f_equal. lia.
Qed.

Lemma charged_nil (catalog : gmap string Material.t) : charged [] catalog catalog.
Proof.
  intros id. simpl. destruct (catalog !! id) as [m|]; simpl;
    [rewrite set_stock_same|]; reflexivity.
Qed.

Lemma charged_cons (item : CartItem) (rest : list CartItem) (material : Material.t)
    (before after : gmap string Material.t) :
  before !! materialId item = Some material ->
  charged rest
    (<[materialId item :=
         Material.set_stock material (Material.stock material - quantity item)]> before)
    after ->
  charged (item :: rest) before after.
Proof.
  intros Hfound Hrest id. rewrite (Hrest id). simpl.
  destruct (String.eqb_spec (materialId item) id) as [<-|Hne].
  - rewrite lookup_insert_eq, Hfound. simpl. unfold Material.set_stock. simpl.
    f_equal. f_equal. lia.
  - rewrite lookup_insert_ne by exact Hne. reflexivity.
Qed.

(** The loop of the placement, line by line: it works through a prefix
    [done] of the cart, charging the catalog for it and taking its snapshots
    from the materials as they are listed, and stops at the first line it
    refuses. *)
Lemma place_loop_run (items : list CartItem) :
  forall subtotal orderItems db,
  exists done rest,
    items = (done ++ rest)%list /\
    charged done (materials db)
      (materials (snd (place_loop items subtotal orderItems db))) /\
    match fst (place_loop items subtotal orderItems db) with
    | Next (subtotal', orderItems') =>
      rest = [] /\
      exists added,
        orderItems' = (orderItems ++ added)%list /\
        subtotal' = items_total_from subtotal added /\
        Forall2 (fun item it =>
                   exists m, materials db !! materialId item = Some m /\
                             Material.isAvailable m = true /\
                             it = snapshot m item) items added
    | Answer r =>
      code r = 400 /\
      exists item rest', rest = item :: rest' /\
        (r = json 400 ("Material " +:+ materialId item +:+ " is not available")
         \/ exists (name : string) (n : Z),
              r = json 400 ("Insufficient stock for " +:+ name
                            +:+ ". Available: " +:+ pretty n))
    | Throw _ => rest <> []
    end.
Proof.
  induction items as [|item rest IH]; intros subtotal orderItems db.
  - exists [], []. simpl. split; [reflexivity|]. split; [apply charged_nil|].
    split; [reflexivity|]. exists []. rewrite app_nil_r. simpl.
    repeat split; constructor.
  - simpl. unfold Material_findById, Material_save. unfold_act.
    destruct (materials db !! materialId item) as [material|] eqn:Hfound; simpl.
    2:{ exists [], (item :: rest). split; [reflexivity|].
        split; [apply charged_nil|]. split; [reflexivity|]. eauto. }
    destruct (Material.isAvailable material) eqn:Havail; simpl.
    2:{ exists [], (item :: rest). split; [reflexivity|].
        split; [apply charged_nil|]. split; [reflexivity|]. eauto. }
    destruct (Material.stock material <? quantity item); simpl.
    { exists [], (item :: rest). split; [reflexivity|].
      split; [apply charged_nil|]. split; [reflexivity|].
      exists item, rest. split; [reflexivity|]. right. eauto. }
    destruct (Material.stock material - quantity item <? 0); simpl.
    { exists [], (item :: rest). split; [reflexivity|].
      split; [apply charged_nil|]. discriminate. }
    match goal with
    | |- context [place_loop rest ?s ?o ?d] =>
      destruct (IH s o d) as (done & rest' & Hsplit & Hcharged & Hres);
      destruct (place_loop rest s o d) as [[[subtotal' orderItems']|r|e] db1]
    end; cbn [fst snd] in *; cbn [materials with_materials] in Hcharged;
      exists (item :: done), rest';
      (split; [rewrite Hsplit; reflexivity|]);
      (split; [eapply charged_cons; eassumption|]).
    + destruct Hres as (-> & added & -> & -> & Hsnap).
      split; [reflexivity|].
      exists (snapshot material item :: added).
      rewrite <- app_assoc. split; [reflexivity|].
      split; [reflexivity|].
      constructor; [eauto|].
      eapply Forall2_impl; [exact Hsnap|].
      intros it oi (m & Hm & Hav & ->).
      cbn [materials with_materials] in Hm.
      destruct (String.eqb_spec (materialId item) (materialId it)) as [Heq|Hne].
      * rewrite <- Heq, lookup_insert_eq in Hm. injection Hm as <-.
        exists material. rewrite <- Heq. auto.
      * rewrite lookup_insert_ne in Hm by exact Hne. eauto.
    + exact Hres.
    + exact Hres.
Qed.

(** The handler around the loop: the field check, the loop, the insert. *)
Lemma place_run (user : User.t) (new_id : ObjectId) (body : PlaceBody) (db : Db) :
  (place user new_id body db = (json 400 "Required fields are missing", db) /\
   (provided (pb_supplierId body) && has_items (pb_items body)
    && provided (pb_deliveryAddress body) = false))
  \/
  exists supplierId items deliveryAddress,
    pb_supplierId body = Some supplierId /\ pb_items body = Some items /\
    pb_deliveryAddress body = Some deliveryAddress /\
    truthy supplierId = true /\ items <> [] /\ truthy deliveryAddress = true /\
    match place_loop items 0%float [] db with
    | (Next (subtotal, orderItems), db1) =>
      let order := new_Order (User._id user) supplierId orderItems subtotal 50
                     (subtotal + 50)%float deliveryAddress (User.phone user) in
      (validate_Order order = true /\ orders db !! new_id = None /\
       place user new_id body db
       = (mkReply 201 "Order placed successfully" (OrderDoc new_id order),
          with_orders db1 (<[new_id := order]> (orders db1))))
      \/ place user new_id body db = (json 500 "Server error placing order", db1)
    | (Answer r, db1) => place user new_id body db = (r, db1)
    | (Throw _, db1) =>
      place user new_id body db = (json 500 "Server error placing order", db1)
    end.
Proof.
  unfold place, try_catch, place_body.
  destruct (pb_supplierId body) as [supplierId|]; [|left; auto].
  destruct (pb_items body) as [items|];
    [|left; split; [reflexivity | simpl; destruct (truthy supplierId); reflexivity]].
  destruct (pb_deliveryAddress body) as [deliveryAddress|];
    [|left; split; [reflexivity | simpl; apply andb_false_r]].
  simpl provided.
  destruct (truthy supplierId) eqn:Hs; simpl; [|left; auto].
  destruct items as [|item items]; simpl has_items; cbn [negb orb andb];
    [left; auto|].
  destruct (truthy deliveryAddress) eqn:Ha; cbn [negb];
    [|left; auto].
  right. exists supplierId, (item :: items), deliveryAddress.
  do 3 (split; [reflexivity|]).
  split; [exact Hs|]. split; [discriminate|]. split; [exact Ha|].
  unfold_act.
  pose proof (place_loop_spec (item :: items) 0%float [] db) as [(Ho & _ & _) _].
  destruct (place_loop (item :: items) 0%float [] db)
    as [[[subtotal orderItems]|r|e] db1];
    cbn [fst snd] in *; cbv beta iota zeta; try reflexivity.
  unfold Order_insert. unfold_act.
  destruct (validate_Order _) eqn:Hval; cbn [negb]; cbv beta iota;
    [|right; reflexivity].
  rewrite Ho. destruct (orders db !! new_id) eqn:Hfresh; [right; reflexivity|].
  left. auto.
Qed.


Lemma place_loop_nonnegative (items : list CartItem) :
  forall subtotal orderItems db,
    (forall id m, materials db !! id = Some m -> 0 <= Material.stock m) ->
    forall id m,
      materials (snd (place_loop items subtotal orderItems db)) !! id = Some m ->
      0 <= Material.stock m.
Proof.
  induction items as [|item rest IH]; intros subtotal orderItems db Hdb; simpl;
    [exact Hdb|].
  unfold Material_findById, Material_save. unfold_act.
  destruct (materials db !! materialId item) as [material|] eqn:Hfound; simpl;
    [|exact Hdb].
  destruct (Material.isAvailable material); simpl; [|exact Hdb].
  destruct (Material.stock material <? quantity item); simpl; [exact Hdb|].
  destruct (Z.ltb_spec (Material.stock material - quantity item) 0) as [Hneg|Hok];
    simpl; [exact Hdb|].
  match goal with
  | |- context [place_loop rest ?s ?o ?d] =>
    specialize (IH s o d); destruct (place_loop rest s o d) as [[[s' o']|r|e] db1]
  end; cbn [fst snd] in *; apply IH; intros id m Hm;
    cbn [materials with_materials] in Hm;
    (destruct (String.eqb_spec (materialId item) id) as [<-|Hne];
     [rewrite lookup_insert_eq in Hm; injection Hm as <-; simpl; lia
     |rewrite lookup_insert_ne in Hm by exact Hne; eapply Hdb; eassumption]).
Qed.

(** No placement, created or refused, ever drives a stock level below zero:
    a catalog without negative stock stays one, even for a cart that orders
    negative quantities. *)
Theorem place_keeps_stock_nonnegative (user : User.t) (new_id : ObjectId)
    (body : PlaceBody) (db : Db) :
  (forall id m, materials db !! id = Some m -> 0 <= Material.stock m) ->
  forall id m,
    materials (snd (place user new_id body db)) !! id = Some m ->
    0 <= Material.stock m.
Proof.
  intros Hdb.
  destruct (place_run user new_id body db)
    as [[-> _] | (supplierId & items & address & _ & _ & _ & _ & _ & _ & Hrun)];
    [exact Hdb|].
  pose proof (place_loop_nonnegative items 0%float [] db Hdb) as Hloop.
  destruct (place_loop items 0%float [] db) as [[[subtotal orderItems]|r|e] db1];
    cbn [fst snd] in *.
  - destruct Hrun as [(_ & _ & ->) | ->]; exact Hloop.
  - rewrite Hrun. exact Hloop.
  - rewrite Hrun. exact Hloop.
Qed.

Lemma place_keeps_stock_nonnegative_witness :
  match materials (snd (place Scenario.vendor "O1"
                          (mkPlaceBody (Some "S1") (Some [mkCartItem "M1" (-4)])
                             (Some "12 Market Road"))
                          (Scenario.catalog 5))) !! "M1" with
  | Some m => 0 <= Material.stock m
  | None => True
  end.
Proof.
  pose proof (place_keeps_stock_nonnegative Scenario.vendor "O1"
                (mkPlaceBody (Some "S1") (Some [mkCartItem "M1" (-4)])
                   (Some "12 Market Road"))
                (Scenario.catalog 5)) as Hkeeps.
  assert (forall id m, materials (Scenario.catalog 5) !! id = Some m ->
                       0 <= Material.stock m) as Hbefore.
  { intros id m Hm.
    destruct (String.eqb_spec id "M1") as [->|H1];
      [vm_compute in Hm; injection Hm as <-; simpl; lia|].
    destruct (String.eqb_spec id "M2") as [->|H2];
      [vm_compute in Hm; injection Hm as <-; simpl; lia|].
    unfold Scenario.catalog in Hm. cbn [materials] in Hm.
    rewrite lookup_insert_ne, lookup_insert_ne, lookup_empty in Hm by congruence.
    discriminate Hm. }
  specialize (Hkeeps Hbefore "M1").
  destruct (materials _ !! "M1") as [m|]; [apply Hkeeps; reflexivity | exact I].
Defined.

(** A created order, in full: what the request held, what the loop made of
    it, and what was written. *)
Lemma place_created (user : User.t) (new_id : ObjectId) (body : PlaceBody) (db : Db) :
  code (fst (place user new_id body db)) = 201 ->
  exists supplierId items deliveryAddress added db1,
    pb_supplierId body = Some supplierId /\ pb_items body = Some items /\
    pb_deliveryAddress body = Some deliveryAddress /\
    Forall2 (fun item it =>
               exists m, materials db !! materialId item = Some m /\
                         Material.isAvailable m = true /\
                         it = snapshot m item) items added /\
    charged items (materials db) (materials db1) /\
    orders db1 = orders db /\ reviews db1 = reviews db /\ users db1 = users db /\
    orders db !! new_id = None /\
    validate_Order (new_Order (User._id user) supplierId added (items_total added)
                      50 (items_total added + 50)%float deliveryAddress (User.phone user))
    = true /\
    place user new_id body db
    = (mkReply 201 "Order placed successfully"
         (OrderDoc new_id
            (new_Order (User._id user) supplierId added (items_total added)
               50 (items_total added + 50)%float deliveryAddress (User.phone user))),
       with_orders db1
         (<[new_id := new_Order (User._id user) supplierId added (items_total added)
                        50 (items_total added + 50)%float deliveryAddress (User.phone user)]>
            (orders db1))).
Proof.
  intros Hcode.
  destruct (place_run user new_id body db)
    as [[Hrun _] | (supplierId & items & address & Hs & Hitems & Ha & _ & _ & _ & Hrun)];
    [rewrite Hrun in Hcode; discriminate|].
  destruct (place_loop_run items 0%float [] db) as (done & rest & Hsplit & Hch & Hres).
  pose proof (place_loop_spec items 0%float [] db) as [(Ho & Hr & Hu) _].
  destruct (place_loop items 0%float [] db) as [[[subtotal orderItems]|r|e] db1];
    cbn [fst snd] in *.
  - destruct Hres as (-> & added & -> & -> & Hsnap).
    rewrite app_nil_r in Hsplit. subst done.
    destruct Hrun as [(Hval & Hfresh & Hrun) | Hrun];
      [|rewrite Hrun in Hcode; discriminate].
    exists supplierId, items, address, added, db1. simpl in *.
    repeat (split; [assumption|]). exact Hrun.
  - rewrite Hrun in Hcode. destruct Hres as [Hr' _]. cbn [fst] in Hcode. congruence.
  - rewrite Hrun in Hcode. discriminate.
Qed.

(** The item snapshots of a created order are taken from the catalog as it is
    when the request arrives: line by line, the material of the line exists
    and is available, and the snapshot has the material id and quantity of
    the line and the name, unit price and unit of the material. *)
Theorem place_snapshots_from_catalog (user : User.t) (new_id : ObjectId)
    (body : PlaceBody) (db : Db) :
  code (fst (place user new_id body db)) = 201 ->
  exists items order,
    pb_items body = Some items /\
    orders (snd (place user new_id body db)) !! new_id = Some order /\
    Forall2 (fun item it =>
               exists m, materials db !! materialId item = Some m /\
                         Material.isAvailable m = true /\
                         it = snapshot m item)
      items (Order.items order).
Proof.
  intros Hcode.
  destruct (place_created user new_id body db Hcode)
    as (supplierId & items & address & added & db1 & _ & Hitems & _ & Hsnap & _ & _
        & _ & _ & _ & _ & ->).
  exists items. eexists. split; [exact Hitems|].
  cbn [snd orders with_orders]. rewrite lookup_insert_eq.
  split; [reflexivity | exact Hsnap].
Qed.

Lemma place_snapshots_from_catalog_witness :
  exists items order,
    pb_items Scenario.cart = Some items /\
    orders Scenario.placed !! "O1" = Some order /\
    Forall2 (fun item it =>
               exists m, materials (Scenario.catalog 5) !! materialId item = Some m /\
                         Material.isAvailable m = true /\
                         it = snapshot m item)
      items (Order.items order).
Proof.
  apply (place_snapshots_from_catalog Scenario.vendor "O1" Scenario.cart
           (Scenario.catalog 5)).
  vm_compute. reflexivity.
Defined.

Lemma Forall2_In_left {A B : Type} (R : A -> B -> Prop) (l : list A) (k : list B)
    (x : A) :
  Forall2 R l k -> In x l -> exists y, In y k /\ R x y.
Proof.
  induction 1 as [|a b l k Hab _ IH]; intros Hin; [destruct Hin|].
  destruct Hin as [->|Hin]; [exists b; split; [left; reflexivity | exact Hab]|].
  destruct (IH Hin) as (y & Hy & Hxy). exists y. split; [right; exact Hy | exact Hxy].
Qed.

(** A material that is not in the catalog, or is marked unavailable, cannot
    be ordered: a cart with a line for it never creates an order. *)
Theorem place_refuses_unlisted (user : User.t) (new_id : ObjectId)
    (body : PlaceBody) (db : Db) (items : list CartItem) (item : CartItem) :
  pb_items body = Some items ->
  In item items ->
  (forall m, materials db !! materialId item = Some m ->
             Material.isAvailable m = false) ->
  code (fst (place user new_id body db)) <> 201 /\
  orders (snd (place user new_id body db)) = orders db.
Proof.
  intros Hitems Hin Hunlisted.
  assert (code (fst (place user new_id body db)) <> 201) as Hcode.
  { intros Hcode.
    destruct (place_created user new_id body db Hcode)
      as (supplierId & items' & address & added & db1 & _ & Hitems' & _ & Hsnap & _).
    assert (items' = items) as -> by congruence.
    destruct (Forall2_In_left _ _ _ item Hsnap Hin) as (it & _ & m & Hm & Hav & _).
    rewrite (Hunlisted m Hm) in Hav. discriminate. }
  split; [exact Hcode|].
  apply place_failure_stores_no_order. exact Hcode.
Qed.

Lemma place_refuses_unlisted_witness :
  code (fst (place Scenario.vendor "O1"
               (mkPlaceBody (Some "S1") (Some [mkCartItem "M1" 1; mkCartItem "M7" 1])
                  (Some "12 Market Road"))
               (Scenario.catalog 5))) <> 201 /\
  orders (snd (place Scenario.vendor "O1"
                 (mkPlaceBody (Some "S1") (Some [mkCartItem "M1" 1; mkCartItem "M7" 1])
                    (Some "12 Market Road"))
                 (Scenario.catalog 5)))
  = orders (Scenario.catalog 5).
Proof.
  apply (place_refuses_unlisted Scenario.vendor "O1"
           (mkPlaceBody (Some "S1") (Some [mkCartItem "M1" 1; mkCartItem "M7" 1])
              (Some "12 Market Road"))
           (Scenario.catalog 5) [mkCartItem "M1" 1; mkCartItem "M7" 1]
           (mkCartItem "M7" 1)).
  - reflexivity.
  - simpl. auto.
  - intros m Hm. vm_compute in Hm. discriminate Hm.
Defined.

(** * The page against the server *)

Lemma loop_answer_not_fields_missing (item : CartItem) (name : string) (n : Z) :
  json 400 ("Material " +:+ materialId item +:+ " is not available")
  <> json 400 "Required fields are missing" /\
  json 400 ("Insufficient stock for " +:+ name +:+ ". Available: " +:+ pretty n)
  <> json 400 "Required fields are missing".
Proof.
  split; intros H; injection H as H; simpl in H; discriminate H.
Qed.

(** The requests that [placeOrder] builds from a cart whose items name their
    supplier always pass the field check of [POST /place]: the server never
    answers them "Required fields are missing". *)
Theorem placeOrder_requests_pass_field_check (cart : list Cart.t)
    (body : PlaceBody) (user : User.t) (new_id : ObjectId) (db : Db) :
  (forall item, In item cart -> Cart.supplierId item <> "") ->
  In body (placeOrder_requests cart) ->
  fst (place user new_id body db) <> json 400 "Required fields are missing".
Proof.
  intros Hnamed Hin.
  destruct (placeOrder_requests_inv cart body Hin) as (supplierId & -> & Hkey).
  assert (truthy supplierId = true) as Hs.
  { apply truthy_nonempty. apply in_map_iff in Hkey as (x & <- & Hx).
    apply Hnamed, Hx. }
  pose proof (lines_of_present supplierId cart Hkey) as Hlines.
  destruct (place_run user new_id
              (mkPlaceBody (Some supplierId) (Some (lines_of supplierId cart))
                 (Some "Default delivery address")) db)
    as [[_ Hguard] | (s & items & address & _ & Hitems & _ & _ & _ & _ & Hrun)].
  - exfalso. simpl in Hguard. rewrite Hs in Hguard.
    destruct (lines_of supplierId cart); [contradiction | discriminate Hguard].
  - simpl in Hitems. injection Hitems as <-.
    destruct (place_loop_run (lines_of supplierId cart) 0%float [] db)
      as (done & rest & _ & _ & Hres).
    destruct (place_loop (lines_of supplierId cart) 0%float [] db)
      as [[[subtotal orderItems]|r|e] db1]; cbn [fst snd] in *.
    + destruct Hrun as [(_ & _ & ->) | ->]; cbn [fst]; discriminate.
    + rewrite Hrun. cbn [fst].
      destruct Hres as (_ & item & rest' & _ & [-> | (name & n & ->)]);
        apply (loop_answer_not_fields_missing item "" 0)
        || apply (loop_answer_not_fields_missing item name n).
    + rewrite Hrun. cbn [fst]. discriminate.
Qed.

Lemma placeOrder_requests_pass_field_check_witness :
  fst (place Scenario.vendor "O1"
         (mkPlaceBody (Some "S2") (Some [mkCartItem "M3" 1])
            (Some "Default delivery address"))
         (Scenario.catalog 5))
  <> json 400 "Required fields are missing".
Proof.
  apply (placeOrder_requests_pass_field_check
           [Cart.mk "M1" "Onion" 20 "kg" 2 "S1" "Fresh Farm";
            Cart.mk "M3" "Salt" 5 "kg" 1 "S2" "Salt Works"]
           (mkPlaceBody (Some "S2") (Some [mkCartItem "M3" 1])
              (Some "Default delivery address"))
           Scenario.vendor "O1" (Scenario.catalog 5)).
  - intros item [<-|[<-|[]]]; simpl; discriminate.
  - vm_compute. right. left. reflexivity.
Defined.

Lemma snapshots_total_from (supplierId : ObjectId) (cart : list Cart.t)
    (catalog : gmap string Material.t) :
  (forall item m, In item cart -> catalog !! Cart.materialId item = Some m ->
                  Material.unitPrice m = Cart.unitPrice item) ->
  forall added total,
    Forall2 (fun item it =>
               exists m, catalog !! materialId item = Some m /\
                         Material.isAvailable m = true /\
                         it = snapshot m item)
      (lines_of supplierId cart) added ->
    items_total_from total added
    = fold_left (fun total item =>
                   (total + Cart.unitPrice item * Number_of (Cart.quantity item))%float)
        (List.filter (fun item => String.eqb (Cart.supplierId item) supplierId) cart)
        total.
Proof.
  unfold lines_of.
  induction cart as [|x cart IH]; intros Hprices added total Hsnap; simpl in *.
  - inversion Hsnap. reflexivity.
  - destruct (String.eqb (Cart.supplierId x) supplierId); simpl in Hsnap.
    + inversion Hsnap as [|line it lines added' (m & Hm & _ & ->) Hrest]; subst.
      simpl in Hm. simpl.
      rewrite (Hprices x m (or_introl eq_refl) Hm).
      apply (IH (fun item m' Hin => Hprices item m' (or_intror Hin)) _ _ Hrest).
    + apply IH; [|exact Hsnap]. intros item m Hin. apply Hprices. right. exact Hin.
Qed.

Lemma snapshots_total (supplierId : ObjectId) (cart : list Cart.t)
    (catalog : gmap string Material.t) :
  (forall item m, In item cart -> catalog !! Cart.materialId item = Some m ->
                  Material.unitPrice m = Cart.unitPrice item) ->
  forall added,
    Forall2 (fun item it =>
               exists m, catalog !! materialId item = Some m /\
                         Material.isAvailable m = true /\
                         it = snapshot m item)
      (lines_of supplierId cart) added ->
    items_total added
    = getTotalAmount
        (List.filter (fun item => String.eqb (Cart.supplierId item) supplierId) cart).
Proof.
  intros Hprices added Hsnap.
  apply (snapshots_total_from supplierId cart catalog Hprices added 0%float Hsnap).
Qed.

(** When a request of [placeOrder] creates an order and the prices in the
    cart are those of the catalog, the subtotal of the order is the amount
    the cart shows for the lines of that supplier, and the total charged is
    that amount plus the delivery fee of 50, which the cart does not show. *)
Theorem cart_amount_is_order_subtotal (cart : list Cart.t) (body : PlaceBody)
    (user : User.t) (new_id : ObjectId) (db : Db) :
  In body (placeOrder_requests cart) ->
  (forall item m, In item cart ->
     materials db !! Cart.materialId item = Some m ->
     Material.unitPrice m = Cart.unitPrice item) ->
  code (fst (place user new_id body db)) = 201 ->
  exists supplierId order,
    pb_supplierId body = Some supplierId /\
    orders (snd (place user new_id body db)) !! new_id = Some order /\
    Order.supplierId order = supplierId /\
    Order.subtotal order
    = getTotalAmount
        (List.filter (fun item => String.eqb (Cart.supplierId item) supplierId) cart) /\
    Order.totalAmount order = (Order.subtotal order + 50)%float.
Proof.
  intros Hin Hprices Hcode.
  destruct (placeOrder_requests_inv cart body Hin) as (supplierId & -> & _).
  destruct (place_created user new_id _ db Hcode)
    as (s & items & address & added & db1 & Hs & Hitems & _ & Hsnap & _ & _
        & _ & _ & _ & _ & ->).
  simpl in Hs, Hitems. injection Hs as <-. injection Hitems as <-.
  exists supplierId. eexists. split; [reflexivity|].
  cbn [snd orders with_orders]. rewrite lookup_insert_eq.
  split; [reflexivity|]. simpl.
  split; [reflexivity|]. split; [|reflexivity].
  apply (snapshots_total supplierId cart (materials db) Hprices added Hsnap).
Qed.

Lemma cart_amount_is_order_subtotal_witness :
  let cart := [Cart.mk "M1" "Onion" 20 "kg" 2 "S1" "Fresh Farm";
               Cart.mk "M2" "Oil" 50 "liter" 1 "S1" "Fresh Farm"] in
  let body := mkPlaceBody (Some "S1") (Some [mkCartItem "M1" 2; mkCartItem "M2" 1])
                (Some "Default delivery address") in
  exists supplierId order,
    pb_supplierId body = Some supplierId /\
    orders (snd (place Scenario.vendor "O1" body (Scenario.catalog 5))) !! "O1"
    = Some order /\
    Order.supplierId order = supplierId /\
    Order.subtotal order
    = getTotalAmount
        (List.filter (fun item => String.eqb (Cart.supplierId item) supplierId) cart) /\
    Order.totalAmount order = (Order.subtotal order + 50)%float.
Proof.
  cbv zeta.
  apply (cart_amount_is_order_subtotal
           [Cart.mk "M1" "Onion" 20 "kg" 2 "S1" "Fresh Farm";
            Cart.mk "M2" "Oil" 50 "liter" 1 "S1" "Fresh Farm"]
           (mkPlaceBody (Some "S1") (Some [mkCartItem "M1" 2; mkCartItem "M2" 1])
              (Some "Default delivery address"))
           Scenario.vendor "O1" (Scenario.catalog 5)).
  - vm_compute. left. reflexivity.
  - intros item m [<-|[<-|[]]] Hm; vm_compute in Hm; injection Hm as <-; reflexivity.
  - vm_compute. reflexivity.
Defined.

(** * The life of an order *)

Section Lifecycle.

Variable Date_parse : string -> JsDate.

Lemma assign_update_content (order : Order.t) (status : string)
    (body : StatusBody) (now : Z) :
  let order' := assign_update Date_parse order status body now in
  Order.vendorId order' = Order.vendorId order /\
  Order.supplierId order' = Order.supplierId order /\
  Order.items order' = Order.items order /\
  Order.subtotal order' = Order.subtotal order /\
  Order.deliveryFee order' = Order.deliveryFee order /\
  Order.totalAmount order' = Order.totalAmount order /\
  Order.deliveryAddress order' = Order.deliveryAddress order /\
  Order.vendorPhone order' = Order.vendorPhone order /\
  Order.paymentMethod order' = Order.paymentMethod order /\
  Order.paymentStatus order' = Order.paymentStatus order /\
  Order.status order' = status /\
  (status = "delivered" -> Order.actualDeliveryTime order' = Some (ValidDate now)).
Proof.
  unfold assign_update.
  destruct (sb_supplierNotes body) as [notes|];
    [destruct (truthy notes)|];
    (destruct (sb_estimatedDeliveryTime body) as [eta|];
      [destruct (truthy eta)|]);
    destruct (String.eqb_spec status "delivered");
    repeat split; try reflexivity; intros; congruence.
Qed.

(** A status update never alters what was ordered or what is owed: whatever
    the request and its outcome, every order keeps its vendor, supplier, item
    snapshots, subtotal, delivery fee, total, address, phone and payment
    fields, no order appears or disappears, and an order other than the one
    addressed is not touched at all. *)
Theorem update_status_keeps_order_content (user : User.t) (orderId : ObjectId)
    (body : StatusBody) (now : Z) (db : Db) (id : ObjectId) :
  match orders db !! id,
        orders (snd (update_status Date_parse user orderId body now db)) !! id with
  | Some o, Some o' =>
    Order.vendorId o' = Order.vendorId o /\
    Order.supplierId o' = Order.supplierId o /\
    Order.items o' = Order.items o /\
    Order.subtotal o' = Order.subtotal o /\
    Order.deliveryFee o' = Order.deliveryFee o /\
    Order.totalAmount o' = Order.totalAmount o /\
    Order.deliveryAddress o' = Order.deliveryAddress o /\
    Order.vendorPhone o' = Order.vendorPhone o /\
    Order.paymentMethod o' = Order.paymentMethod o /\
    Order.paymentStatus o' = Order.paymentStatus o /\
    (id <> orderId -> o' = o)
  | None, None => True
  | _, _ => False
  end.
Proof.
  pose proof (update_status_run Date_parse user orderId body now db) as Hrun.
  destruct (update_status Date_parse user orderId body now db) as [r db'].
  cbn [fst snd] in *.
  assert (match orders db !! id with
          | Some o =>
            Order.vendorId o = Order.vendorId o /\
            Order.supplierId o = Order.supplierId o /\
            Order.items o = Order.items o /\
            Order.subtotal o = Order.subtotal o /\
            Order.deliveryFee o = Order.deliveryFee o /\
            Order.totalAmount o = Order.totalAmount o /\
            Order.deliveryAddress o = Order.deliveryAddress o /\
            Order.vendorPhone o = Order.vendorPhone o /\
            Order.paymentMethod o = Order.paymentMethod o /\
            Order.paymentStatus o = Order.paymentStatus o /\
            (id <> orderId -> o = o)
          | None => True
          end) as Hsame
    by (destruct (orders db !! id); repeat split; reflexivity).
  destruct Hrun as [| | | | |status order allowed Hst Htr Hfind Hown Hprop Hinc Hval];
    try (destruct (orders db !! id); exact Hsame).
  cbn [orders with_orders].
  destruct (String.eqb_spec orderId id) as [<-|Hne].
  - rewrite lookup_insert_eq, Hfind.
    destruct (assign_update_content order status body now)
      as (H1 & H2 & H3 & H4 & H5 & H6 & H7 & H8 & H9 & H10 & _).
    repeat (split; [assumption|]). intros Hne. contradiction.
  - rewrite lookup_insert_ne by exact Hne.
    destruct (orders db !! id); exact Hsame.
Qed.

Lemma legal_transition_progress (current requested : string) :
  legal_transition current requested ->
  (progress current < progress requested)%nat.
Proof.
  intros H. destruct H; vm_compute; lia.
Qed.

Lemma progress_le_3 (status : string) : (progress status <= 3)%nat.
Proof.
  unfold progress.
  destruct (String.eqb status "pending"); [lia|].
  destruct (String.eqb status "confirmed"); [lia|].
  destruct (String.eqb status "out_for_delivery"); lia.
Qed.

(** One request: the progress of an order never goes back, and goes forward
    when the request changes its status. *)
Lemma update_status_progress (user : User.t) (orderId : ObjectId)
    (body : StatusBody) (now : Z) (db : Db) (id : ObjectId) :
  let res := update_status Date_parse user orderId body now db in
  let at_ (d : Db) :=
    match orders d !! id with
    | Some o => progress (Order.status o)
    | None => 3%nat
    end in
  (at_ db + (if String.eqb orderId id && Z.eqb (code (fst res)) 200
             then 1 else 0) <= at_ (snd res))%nat.
Proof.
  cbv zeta.
  pose proof (update_status_run Date_parse user orderId body now db) as Hrun.
  destruct (update_status Date_parse user orderId body now db) as [r db'].
  cbn [fst snd] in *.
  destruct Hrun as [| | | | |status order allowed Hst Htr Hfind Hown Hprop Hinc Hval];
    cbn [code json]; try (rewrite andb_false_r; lia).
  cbn [orders with_orders].
  destruct (String.eqb_spec orderId id) as [<-|Hne]; cbn [andb].
  - rewrite lookup_insert_eq, Hfind.
    destruct (assign_update_content order status body now)
      as (_ & _ & _ & _ & _ & _ & _ & _ & _ & _ & -> & _).
    assert (legal_transition (Order.status order) status) as Hlegal
      by (eapply validTransitions_legal; eassumption).
    apply legal_transition_progress in Hlegal. simpl. lia.
  - rewrite lookup_insert_ne by exact Hne. lia.
Qed.

(** However many requests are served, and whoever sends them, the status of
    an order changes at most three times. *)
Theorem at_most_three_transitions (orderId : ObjectId)
    (requests : list StatusRequest) (db : Db) :
  (transitions_of Date_parse orderId requests db <= 3)%nat.
Proof.
  assert (forall requests db,
            (match orders db !! orderId with
             | Some o => progress (Order.status o)
             | None => 3
             end + transitions_of Date_parse orderId requests db <= 3)%nat) as Hsum.
  { clear requests db. induction requests as [|rq rest IH]; intros db; simpl.
    - destruct (orders db !! orderId) as [o|]; [|lia].
      pose proof (progress_le_3 (Order.status o)). lia.
    - pose proof (update_status_progress (sr_user rq) (sr_orderId rq) (sr_body rq)
                    (sr_now rq) db orderId) as Hstep.
      cbv beta zeta in Hstep.
      specialize (IH (snd (update_status Date_parse (sr_user rq) (sr_orderId rq)
                             (sr_body rq) (sr_now rq) db))).
      lia. }
  specialize (Hsum requests db). lia.
Qed.

Lemma update_status_terminal (user : User.t) (orderId : ObjectId)
    (body : StatusBody) (now : Z) (db : Db) (id : ObjectId) (o : Order.t) :
  orders db !! id = Some o ->
  Order.status o = "delivered" \/ Order.status o = "cancelled" ->
  orders (snd (update_status Date_parse user orderId body now db)) !! id = Some o.
Proof.
  intros Hfound Hterminal.
  pose proof (update_status_run Date_parse user orderId body now db) as Hrun.
  destruct (update_status Date_parse user orderId body now db) as [r db'].
  cbn [fst snd] in *.
  destruct Hrun as [| | | | |status order allowed Hst Htr Hfind Hown Hprop Hinc Hval];
    try exact Hfound.
  cbn [orders with_orders].
  destruct (String.eqb_spec orderId id) as [<-|Hne];
    [|rewrite lookup_insert_ne by exact Hne; exact Hfound].
  exfalso. assert (order = o) as -> by congruence.
  assert (legal_transition (Order.status o) status) as Hlegal
    by (eapply validTransitions_legal; eassumption).
  destruct Hterminal as [Ht|Ht]; rewrite Ht in Hlegal; inversion Hlegal.
Qed.

(** A delivered or cancelled order is final: no sequence of status requests,
    by anyone, changes anything of it. *)
Theorem terminal_order_is_final (id : ObjectId) (o : Order.t)
    (requests : list StatusRequest) (db : Db) :
  orders db !! id = Some o ->
  Order.status o = "delivered" \/ Order.status o = "cancelled" ->
  orders (after_status_requests Date_parse requests db) !! id = Some o /\
  transitions_of Date_parse id requests db = 0%nat.
Proof.
  revert db. induction requests as [|rq rest IH]; intros db Hfound Hterminal; simpl.
  - split; [exact Hfound | reflexivity].
  - pose proof (update_status_terminal (sr_user rq) (sr_orderId rq) (sr_body rq)
                  (sr_now rq) db id o Hfound Hterminal) as Hstep.
    destruct (IH _ Hstep Hterminal) as [Hfinal Hcount].
    split; [exact Hfinal|]. rewrite Hcount.
    pose proof (update_status_progress (sr_user rq) (sr_orderId rq) (sr_body rq)
                  (sr_now rq) db id) as Hprog.
    cbv beta zeta in Hprog. rewrite Hfound, Hstep in Hprog.
    destruct (String.eqb (sr_orderId rq) id
              && Z.eqb (code (fst (update_status Date_parse (sr_user rq) (sr_orderId rq)
                                     (sr_body rq) (sr_now rq) db))) 200);
      [lia | reflexivity].
Qed.

End Lifecycle.

Lemma terminal_order_is_final_witness :
  let delivered := Scenario.order_in "delivered" in
  let requests :=
    [mkStatusRequest Scenario.supplier1 "O1" (mkStatusBody (Some "cancelled") None None) 5;
     mkStatusRequest Scenario.supplier1 "O1" (mkStatusBody (Some "pending") None None) 6] in
  orders (after_status_requests Scenario.parse requests Scenario.delivered3) !! "O1"
  = Some delivered /\
  transitions_of Scenario.parse "O1" requests Scenario.delivered3 = 0%nat.
Proof.
  cbv zeta.
  apply (terminal_order_is_final Scenario.parse "O1" (Scenario.order_in "delivered")).
  - vm_compute. reflexivity.
  - left. reflexivity.
Defined.

(** The bound of three is reached: confirm, send out, deliver. *)
Example three_transitions_happen :
  transitions_of Scenario.parse "O1"
    [mkStatusRequest Scenario.supplier1 "O1" (mkStatusBody (Some "confirmed") None None) 1;
     mkStatusRequest Scenario.supplier1 "O1"
       (mkStatusBody (Some "out_for_delivery") None None) 2;
     mkStatusRequest Scenario.supplier1 "O1" (mkStatusBody (Some "delivered") None None) 3]
    Scenario.placed
  = 3%nat.
Proof. vm_compute. reflexivity. Qed.

(** * The Orders page against the server *)

Lemma includes_In (l : list string) (x : string) :
  includes l x = true <-> In x l.
Proof.
  unfold includes. rewrite existsb_exists. split.
  - intros (y & Hy & Heq). apply String.eqb_eq in Heq. subst. exact Hy.
  - intros Hin. exists x. split; [exact Hin | apply String.eqb_refl].
Qed.

Lemma validate_assign_update (Date_parse : string -> JsDate) (order : Order.t)
    (status : string) (notes : option string) (now : Z) :
  validate_Order order = true ->
  In status Order.status_enum ->
  validate_Order (assign_update Date_parse order status
                    (updateOrderStatus_body status notes) now) = true.
Proof.
  intros Hval Henum. apply includes_In in Henum.
  destruct order. unfold validate_Order, assign_update in *. simpl in *.
  repeat match type of Hval with
         | _ && _ = true => apply andb_prop in Hval as [Hval ?]
         end.
  destruct notes as [n|]; [destruct (truthy n)|];
    destruct (String.eqb status "delivered"); simpl;
    repeat (apply andb_true_intro; split); assumption || reflexivity.
Qed.

(** The buttons of the Orders page and the transition check of the server
    agree: for an order of the acting supplier, the page offers a next status
    exactly when the request it sends for that status succeeds. *)
Theorem page_offers_what_server_accepts (Date_parse : string -> JsDate)
    (user : User.t) (orderId : ObjectId) (order : Order.t) (next : string)
    (notes : option string) (now : Z) (db : Db) :
  orders db !! orderId = Some order ->
  Order.supplierId order = User._id user ->
  validate_Order order = true ->
  (In next (getNextStatus (Order.status order)) <->
   code (fst (update_status Date_parse user orderId
                (updateOrderStatus_body next notes) now db)) = 200).
Proof.
  intros Hfound Hown Hvalid.
  pose proof (update_status_run Date_parse user orderId
                (updateOrderStatus_body next notes) now db) as Hrun.
  destruct (update_status Date_parse user orderId
              (updateOrderStatus_body next notes) now db) as [r db'].
  cbn [fst snd] in *. unfold getNextStatus.
  change transitions with validTransitions.
  split.
  - intros Hin.
    destruct (property validTransitions (Order.status order)) as [allowed|] eqn:Hprop;
      [|destruct Hin].
    assert (legal_transition (Order.status order) next) as Hlegal.
    { eapply validTransitions_legal; [exact Hprop | apply includes_In, Hin]. }
    assert (In next Order.status_enum /\ truthy next = true) as [Henum Htruthy]
      by (destruct Hlegal; split; simpl; auto 6).
    destruct Hrun as
      [Hreq
      |status Hst Htr Hnone
      |status order' Hst Htr Hfind Hown' Hprop'
      |status order' allowed' Hst Htr Hfind Hown' Hprop' Hinc
      |status order' allowed' Hst Htr Hfind Hown' Hprop' Hinc Hval
      |status order' allowed' Hst Htr Hfind Hown' Hprop' Hinc Hval];
      try reflexivity; exfalso.
    + simpl in Hreq. congruence.
    + eapply Hnone; eassumption.
    + congruence.
    + assert (order' = order) as -> by congruence.
      simpl in Hst. injection Hst as <-.
      assert (allowed' = allowed) as -> by congruence.
      apply includes_In in Hin. congruence.
    + assert (order' = order) as -> by congruence.
      simpl in Hst. injection Hst as <-.
      rewrite (validate_assign_update Date_parse order next notes now Hvalid Henum)
        in Hval. discriminate.
  - intros Hcode.
    destruct Hrun as
      [| | | |
       |status order' allowed' Hst Htr Hfind Hown' Hprop' Hinc Hval];
      try discriminate Hcode.
    assert (order' = order) as -> by congruence.
    simpl in Hst. injection Hst as <-.
    rewrite Hprop'. apply includes_In, Hinc.
Qed.

Lemma page_offers_what_server_accepts_witness :
  (In "confirmed" (getNextStatus (Order.status Scenario.placed_order)) <->
   code (fst (update_status Scenario.parse Scenario.supplier1 "O1"
                (updateOrderStatus_body "confirmed" None) 0 Scenario.placed)) = 200).
Proof.
  apply (page_offers_what_server_accepts Scenario.parse Scenario.supplier1 "O1"
           Scenario.placed_order "confirmed" None 0 Scenario.placed).
  - vm_compute. reflexivity.
  - reflexivity.
  - vm_compute. reflexivity.
Defined.

(** * Deleting a material *)

Lemma delete_material_run (user : User.t) (id : ObjectId) (db : Db) :
  (exists m, materials db !! id = Some m /\
             Material.supplierId m = User._id user /\
             delete_material user id db
             = (json 200 "Material deleted successfully",
                with_materials db (delete id (materials db))))
  \/
  ((forall m, materials db !! id = Some m ->
              Material.supplierId m <> User._id user) /\
   delete_material user id db
   = (json 404 "Material not found or unauthorized", db)).
Proof.
  unfold delete_material, try_catch, delete_material_body, Material_findOneAndDelete.
  unfold_act.
  destruct (materials db !! id) as [m|] eqn:Hfound; cbn [fst snd];
    [|right; split; [intros m Hm; discriminate | reflexivity]].
  destruct (String.eqb_spec (Material.supplierId m) (User._id user)) as [Hown|Hown];
    cbn [fst snd].
  - left. exists m. auto.
  - right. split; [intros m' Hm'; congruence | reflexivity].
Qed.

(** Only its owner deletes a material.  The call succeeds exactly when the
    material exists and belongs to the caller, and then the material is gone;
    otherwise the reply is 404 and nothing changes.  No other material
    changes, and orders, with the snapshots they took of the material,
    reviews and users are left alone. *)
Theorem delete_material_owner_only (user : User.t) (id : ObjectId) (db : Db) :
  let res := delete_material user id db in
  (code (fst res) = 200 <->
   exists m, materials db !! id = Some m /\ Material.supplierId m = User._id user) /\
  (code (fst res) = 200 -> materials (snd res) !! id = None) /\
  (code (fst res) <> 200 -> snd res = db /\ code (fst res) = 404) /\
  (forall other, other <> id -> materials (snd res) !! other = materials db !! other) /\
  orders (snd res) = orders db /\ reviews (snd res) = reviews db /\
  users (snd res) = users db.
Proof.
  cbv zeta.
  destruct (delete_material_run user id db) as [(m & Hm & Hown & ->) | (Hnot & ->)];
    cbn [fst snd code json materials orders reviews users with_materials].
  - split; [split; [eauto | reflexivity]|].
    split; [intros _; apply lookup_delete_eq|].
    split; [intros H; contradiction H; reflexivity|].
    split; [intros other Hne; apply lookup_delete_ne; congruence|]. auto.
  - split.
    { split; [discriminate|]. intros (m & Hm & Hown). exfalso.
      eapply Hnot; eassumption. }
    split; [discriminate|]. split; [auto|]. auto.
Qed.

(** Once deleted, a material cannot be ordered any more: after its owner
    deleted it, a cart with a line for it creates no order, whatever happens
    in between to the orders. *)
Theorem deleted_material_cannot_be_ordered (owner vendor : User.t)
    (id new_id : ObjectId) (body : PlaceBody) (items : list CartItem)
    (item : CartItem) (db : Db) :
  code (fst (delete_material owner id db)) = 200 ->
  pb_items body = Some items ->
  In item items -> materialId item = id ->
  code (fst (place vendor new_id body (snd (delete_material owner id db)))) <> 201.
Proof.
  intros Hdeleted Hitems Hin Hid.
  destruct (delete_material_run owner id db) as [(m & Hm & Hown & Hrun) | (_ & Hrun)];
    rewrite Hrun in *; [|discriminate].
  cbn [snd].
  intros Hcode.
  destruct (place_created vendor new_id body _ Hcode)
    as (supplierId & items' & address & added & db1 & _ & Hitems' & _ & Hsnap & _).
  assert (items' = items) as -> by congruence.
  destruct (Forall2_In_left _ _ _ item Hsnap Hin) as (it & _ & m' & Hm' & _).
  cbn [materials with_materials] in Hm'. rewrite Hid, lookup_delete_eq in Hm'.
  discriminate.
Qed.

Lemma deleted_material_cannot_be_ordered_witness :
  code (fst (place Scenario.vendor "O1" Scenario.cart
               (snd (delete_material Scenario.supplier1 "M2" (Scenario.catalog 5)))))
  <> 201.
Proof.
  apply (deleted_material_cannot_be_ordered Scenario.supplier1 Scenario.vendor
           "M2" "O1" Scenario.cart [mkCartItem "M1" 2; mkCartItem "M2" 1]
           (mkCartItem "M2" 1) (Scenario.catalog 5)).
  - vm_compute. reflexivity.
  - reflexivity.
  - simpl. auto.
  - reflexivity.
Defined.

(** * Reading one order *)

(** [GET /:orderId] shows an order to its two parties only and writes
    nothing: a reply that carries an order carries the stored one, to a
    requester who is its vendor or its supplier; a party gets it whenever the
    accounts the order refers to exist; anyone else gets 403; and when the
    vendor account of the order is gone nobody can read it, the supplier
    included. *)
Theorem get_order_parties_only (user : User.t) (orderId : ObjectId) (db : Db) :
  let res := get_order user orderId db in
  snd res = db /\
  (forall id order, doc (fst res) = OrderDoc id order ->
     id = orderId /\ orders db !! orderId = Some order /\
     (Order.vendorId order = User._id user \/ Order.supplierId order = User._id user)) /\
  (forall order,
     orders db !! orderId = Some order ->
     is_Some (users db !! Order.vendorId order) ->
     is_Some (users db !! Order.supplierId order) ->
     (Order.vendorId order = User._id user \/ Order.supplierId order = User._id user ->
      fst res = mkReply 200 "" (OrderDoc orderId order)) /\
     (Order.vendorId order <> User._id user ->
      Order.supplierId order <> User._id user ->
      fst res = json 403 "Unauthorized to view this order")) /\
  (forall order,
     orders db !! orderId = Some order ->
     users db !! Order.vendorId order = None ->
     fst res = json 500 "Server error fetching order details") /\
  (orders db !! orderId = None -> fst res = json 404 "Order not found").
Proof.
  cbv zeta. unfold get_order, try_catch, get_order_body. unfold_act.
  destruct (orders db !! orderId) as [order|] eqn:Hfound; cbn [fst snd].
  2:{ split; [reflexivity|]. split; [intros id o H; discriminate H|].
      split; [intros o H; discriminate H|].
      split; [intros o H; discriminate H | reflexivity]. }
  destruct (users db !! Order.vendorId order) as [vendor|] eqn:Hvendor; cbn [fst snd].
  2:{ split; [reflexivity|]. split; [intros id o H; discriminate H|].
      split; [intros o [= <-] [v Hv]; congruence|].
      split; [intros o _ _; reflexivity | discriminate]. }
  destruct (String.eqb_spec (Order.vendorId order) (User._id user)) as [Hv|Hv];
    cbn [negb fst snd].
  { split; [reflexivity|].
    split; [intros id o [= <- <-]; auto|].
    split; [intros o [= <-] _ _; split; [reflexivity | contradiction]|].
    split; [intros o [= <-]; congruence | discriminate]. }
  destruct (users db !! Order.supplierId order) as [supplier|] eqn:Hsupplier;
    cbn [fst snd].
  2:{ split; [reflexivity|]. split; [intros id o H; discriminate H|].
      split; [intros o [= <-] _ [s Hs]; congruence|].
      split; [intros o [= <-]; congruence | discriminate]. }
  destruct (String.eqb_spec (Order.supplierId order) (User._id user)) as [Hs|Hs];
    cbn [negb fst snd].
  - split; [reflexivity|].
    split; [intros id o [= <- <-]; auto|].
    split; [intros o [= <-] _ _; split; [reflexivity | contradiction]|].
    split; [intros o [= <-]; congruence | discriminate].
  - split; [reflexivity|]. split; [intros id o H; discriminate H|].
    split; [intros o [= <-] _ _; split; [intros [?|?]; contradiction | reflexivity]|].
    split; [intros o [= <-]; congruence | discriminate].
Qed.

Lemma get_order_parties_only_witness :
  fst (get_order Scenario.supplier1 "O1" Scenario.placed)
  = mkReply 200 "" (OrderDoc "O1" Scenario.placed_order) /\
  fst (get_order Scenario.supplier2 "O1" Scenario.placed)
  = json 403 "Unauthorized to view this order".
Proof.
  destruct (get_order_parties_only Scenario.supplier1 "O1" Scenario.placed)
    as (_ & _ & Hparty & _).
  destruct (get_order_parties_only Scenario.supplier2 "O1" Scenario.placed)
    as (_ & _ & Hother & _).
  cbv zeta in Hparty, Hother.
  split.
  - apply (Hparty Scenario.placed_order);
      [vm_compute; reflexivity | vm_compute; eauto | vm_compute; eauto
      | right; reflexivity].
  - apply (Hother Scenario.placed_order);
      [vm_compute; reflexivity | vm_compute; eauto | vm_compute; eauto
      | discriminate | discriminate].
Defined.

(** * Invariants of the store *)

Lemma place_frame (user : User.t) (new_id : ObjectId) (body : PlaceBody) (db : Db) :
  reviews (snd (place user new_id body db)) = reviews db /\
  users (snd (place user new_id body db)) = users db.
Proof.
  destruct (place_run user new_id body db)
    as [[-> _] | (supplierId & items & address & _ & _ & _ & _ & _ & _ & Hrun)];
    [split; reflexivity|].
  pose proof (place_loop_spec items 0%float [] db) as [(_ & Hr & Hu) _].
  destruct (place_loop items 0%float [] db) as [[[subtotal orderItems]|r|e] db1];
    cbn [fst snd] in *.
  - destruct Hrun as [(_ & _ & ->) | ->]; cbn [snd reviews users with_orders]; auto.
  - rewrite Hrun. auto.
  - rewrite Hrun. auto.
Qed.

Lemma add_review_frame (scope : list string) (user : User.t) (body : ReviewBody)
    (db : Db) :
  let res := add_review_in scope user body db in
  materials (snd res) = materials db /\ orders (snd res) = orders db /\
  (reviews (snd res) = reviews db \/
   exists review order,
     reviews (snd res) = (reviews db ++ [review])%list /\
     validate_Review review = true /\
     Review.vendorId review = User._id user /\
     orders db !! Review.orderId review = Some order /\
     Order.vendorId order = User._id user /\
     Order.status order = "delivered" /\
     (forall r, In r (reviews db) -> Review.orderId r <> Review.orderId review)).
Proof.
  cbv zeta.
  pose proof (add_review_run scope user body db) as Hrun.
  destruct (add_review_in scope user body db) as [r db']. cbn [fst snd] in *.
  destruct Hrun as
    [| | | |orderId supplierId rating order Ho Hs Hr Hto Hts Hr0 Hfind Hv Hd Hnone
            review Hval]; auto.
  destruct (updateSupplierRating_in_frame scope supplierId
              (with_reviews db (reviews db ++ [review])%list))
    as (db1 & -> & Hm & Ho1 & Hr1).
  cbn [snd]. cbn [materials orders reviews with_reviews] in Hm, Ho1, Hr1.
  split; [exact Hm|]. split; [exact Ho1|]. right.
  exists review, order. subst review. simpl. auto 10.
Qed.

Lemma validate_items_positive (items : list OrderItem.t) :
  forallb validate_orderItem items = true ->
  Forall (fun it => 1 <= OrderItem.quantity it /\
                    (0 <=? OrderItem.unitPrice it)%float = true) items.
Proof.
  induction items as [|it items IH]; simpl; intros H; [constructor|].
  apply andb_prop in H as [Hit Hrest]. constructor; [|auto].
  unfold validate_orderItem in Hit.
  repeat match type of Hit with
         | _ && _ = true => apply andb_prop in Hit as [Hit ?]
         end.
  split; [apply Z.leb_le|]; assumption.
Qed.

Lemma validate_new_order_well_formed (vendorId supplierId : ObjectId)
    (items : list OrderItem.t) (address phone : string) :
  validate_Order (new_Order vendorId supplierId items (items_total items) 50
                    (items_total items + 50)%float address phone) = true ->
  well_formed_order (new_Order vendorId supplierId items (items_total items) 50
                       (items_total items + 50)%float address phone).
Proof.
  intros Hval. unfold validate_Order in Hval. simpl in Hval.
  repeat match type of Hval with
         | _ && _ = true => apply andb_prop in Hval as [Hval ?]
         end.
  unfold well_formed_order. simpl.
  split; [auto|]. split; [apply validate_items_positive; assumption|].
  repeat split; try reflexivity. intros H'. discriminate H'.
Qed.

(** Every operation that writes keeps the ledger well formed: if every stored
    order has a status of the schema, lines of at least one unit at a price
    that passes [min: 0], a subtotal that is the sum the code takes over its
    snapshots, the fee 50, a total that is the Number [subtotal +
    deliveryFee], and a delivery stamp once it is delivered, then the same
    holds after a placement, a status update, a review submission or the
    deletion of a material, whatever their outcome. *)
Theorem ledger_stays_well_formed (db : Db) :
  ledger_ok db ->
  (forall user new_id body, ledger_ok (snd (place user new_id body db))) /\
  (forall Date_parse user orderId body now,
     ledger_ok (snd (update_status Date_parse user orderId body now db))) /\
  (forall scope user body, ledger_ok (snd (add_review_in scope user body db))) /\
  (forall user id, ledger_ok (snd (delete_material user id db))).
Proof.
  intros Hok. split; [|split; [|split]].
  - intros user new_id body id o Hfound.
    destruct (Z.eq_dec (code (fst (place user new_id body db))) 201) as [Hcode|Hcode].
    + destruct (place_created user new_id body db Hcode)
        as (supplierId & items & address & added & db1 & _ & _ & _ & _ & _ & Ho1
            & _ & _ & _ & Hval & Hrun).
      rewrite Hrun in Hfound. cbn [snd orders with_orders] in Hfound.
      destruct (String.eqb_spec new_id id) as [<-|Hne].
      * rewrite lookup_insert_eq in Hfound. injection Hfound as <-.
        apply validate_new_order_well_formed, Hval.
      * rewrite lookup_insert_ne, Ho1 in Hfound by exact Hne. eapply Hok, Hfound.
    + destruct (place_failure_stores_no_order user new_id body db Hcode) as [_ Ho].
      rewrite Ho in Hfound. eapply Hok, Hfound.
  - intros Date_parse user orderId body now id o Hfound.
    pose proof (update_status_run Date_parse user orderId body now db) as Hrun.
    destruct (update_status Date_parse user orderId body now db) as [r db'].
    cbn [fst snd] in *.
    destruct Hrun as [| | | | |status order allowed Hst Htr Hfind Hown Hprop Hinc Hval];
      try (eapply Hok, Hfound).
    cbn [orders with_orders] in Hfound.
    destruct (String.eqb_spec orderId id) as [<-|Hne];
      [|rewrite lookup_insert_ne in Hfound by exact Hne; eapply Hok, Hfound].
    rewrite lookup_insert_eq in Hfound. injection Hfound as <-.
    destruct (Hok _ _ Hfind) as (_ & Hitems & Hsub & Hfee & Htotal & _).
    destruct (assign_update_content Date_parse order status body now)
      as (_ & _ & Hi & Hs & Hf & Ht & _ & _ & _ & _ & Hstatus & Hstamp).
    unfold well_formed_order. rewrite Hi, Hs, Hf, Ht, Hstatus.
    assert (legal_transition (Order.status order) status) as Hlegal
      by (eapply validTransitions_legal; eassumption).
    split; [destruct Hlegal; simpl; auto 6|].
    repeat (split; [assumption|]). intros Hdelivered. eauto.
  - intros scope user body id o Hfound.
    destruct (add_review_frame scope user body db) as (_ & Ho & _).
    rewrite Ho in Hfound. eapply Hok, Hfound.
  - intros user id id' o Hfound.
    destruct (delete_material_run user id db) as [(m & _ & _ & Hrun) | (_ & Hrun)];
      rewrite Hrun in Hfound; eapply Hok, Hfound.
Qed.

Lemma ledger_stays_well_formed_witness :
  ledger_ok
    (snd (update_status Scenario.parse Scenario.supplier1 "O1"
            (mkStatusBody (Some "confirmed") None None) 0 Scenario.placed)).
Proof.
  destruct (ledger_stays_well_formed Scenario.placed) as (_ & Hupdate & _).
  - assert (orders Scenario.placed = <["O1" := Scenario.placed_order]> ∅) as Hplaced
      by (vm_compute; reflexivity).
    intros id o Hfound. rewrite Hplaced in Hfound.
    destruct (String.eqb_spec "O1" id) as [<-|Hne].
    + rewrite lookup_insert_eq in Hfound. injection Hfound as <-.
      unfold well_formed_order. simpl.
      split; [auto|].
      split; [repeat (constructor; [split; [simpl; lia | reflexivity]|]);
              constructor|].
      repeat (split; [vm_compute; reflexivity|]). discriminate.
    + rewrite lookup_insert_ne, lookup_empty in Hfound by exact Hne.
      discriminate Hfound.
  - apply Hupdate.
Defined.

(** Every operation that writes keeps the reviews sound: if no order has two
    reviews and every stored review rates, from 1 to 5, a delivered order of
    its author, then the same holds after a review submission, a status
    update, a placement or the deletion of a material. *)
Theorem reviews_stay_sound (db : Db) :
  reviews_ok db ->
  (forall scope user body, reviews_ok (snd (add_review_in scope user body db))) /\
  (forall Date_parse user orderId body now,
     reviews_ok (snd (update_status Date_parse user orderId body now db))) /\
  (forall user new_id body, reviews_ok (snd (place user new_id body db))) /\
  (forall user id, reviews_ok (snd (delete_material user id db))).
Proof.
  intros [Hnd Hsound]. split; [|split; [|split]].
  - intros scope user body.
    destruct (add_review_frame scope user body db) as (_ & Ho & Hreviews).
    cbv zeta in Ho, Hreviews. unfold reviews_ok. rewrite Ho.
    destruct Hreviews as [-> | (review & order & -> & Hval & Hvendor & Hfind & Hv & Hd
                                & Hnone)]; [auto|].
    split.
    + rewrite map_app. apply List.NoDup_app; [exact Hnd | |].
      * apply List.NoDup_cons; [simpl; tauto | constructor].
      * intros oid Hin [<-|[]]. apply in_map_iff in Hin as (r & Hr & Hrin).
        apply (Hnone r Hrin Hr).
    + intros r Hin. apply in_app_or in Hin as [Hin|[<-|[]]]; [apply Hsound, Hin|].
      split.
      * unfold validate_Review in Hval.
        repeat match type of Hval with
               | _ && _ = true => apply andb_prop in Hval as [Hval ?]
               end.
        split; apply Z.leb_le; assumption.
      * exists order. rewrite Hvendor. auto.
  - intros Date_parse user orderId body now.
    destruct (update_status_frame Date_parse user orderId body now db _ _
                (surjective_pairing _)) as (_ & Hr & _).
    unfold reviews_ok. rewrite Hr. split; [exact Hnd|].
    intros r Hin. destruct (Hsound r Hin) as (Hrating & o & Hfind & Hv & Hd).
    split; [exact Hrating|]. exists o.
    split; [|auto].
    apply update_status_terminal; [exact Hfind | left; exact Hd].
  - intros user new_id body.
    destruct (place_frame user new_id body db) as [Hr _].
    unfold reviews_ok. rewrite Hr. split; [exact Hnd|].
    intros r Hin. destruct (Hsound r Hin) as (Hrating & o & Hfind & Hv & Hd).
    split; [exact Hrating|]. exists o. split; [|auto].
    destruct (Z.eq_dec (code (fst (place user new_id body db))) 201) as [Hcode|Hcode].
    + destruct (place_created user new_id body db Hcode)
        as (supplierId & items & address & added & db1 & _ & _ & _ & _ & _ & Ho1
            & _ & _ & Hfresh & _ & Hrun).
      rewrite Hrun. cbn [snd orders with_orders].
      rewrite lookup_insert_ne, Ho1 by congruence. exact Hfind.
    + destruct (place_failure_stores_no_order user new_id body db Hcode) as [_ Ho].
      rewrite Ho. exact Hfind.
  - intros user id.
    destruct (delete_material_run user id db) as [(m & _ & _ & Hrun) | (_ & Hrun)];
      rewrite Hrun; split; assumption.
Qed.

Lemma reviews_stay_sound_witness :
  reviews_ok (snd (add_review Scenario.vendor (Scenario.review_of "O1" "S1" 5)
                     Scenario.delivered3)).
Proof.
  destruct (reviews_stay_sound Scenario.delivered3) as (Hadd & _).
  - split; [simpl; constructor | intros r []].
  - apply (Hadd reviews_js_scope Scenario.vendor (Scenario.review_of "O1" "S1" 5)).
Defined.

(** * The reviews of a supplier *)

(** [GET /supplier/:supplierId] writes nothing, and in a module that does not
    bind [mongoose] it never returns a review: every request, for any
    supplier, page and limit and over any stored reviews, is answered 500
    "Server error fetching reviews".  The module of the repository is such a
    module. *)
Theorem supplier_reviews_always_fails (scope : list string)
    (supplierId : ObjectId) (page limit : positive) (db : Db) :
  includes scope "mongoose" = false ->
  supplier_reviews_in scope supplierId page limit db
  = (ReviewsError 500 "Server error fetching reviews", db) /\
  supplier_reviews supplierId page limit db
  = (ReviewsError 500 "Server error fetching reviews", db).
Proof.
  intros Hunbound. split; [|reflexivity].
  unfold supplier_reviews_in, supplier_reviews_body, Review_find_page,
    Review_countDocuments, identifier.
  unfold_act. rewrite Hunbound. reflexivity.
Qed.

Lemma supplier_reviews_always_fails_witness :
  supplier_reviews "S1" 1 10 (Scenario.three_reviews reviews_js_scope)
  = (ReviewsError 500 "Server error fetching reviews",
     Scenario.three_reviews reviews_js_scope).
Proof.
  apply (supplier_reviews_always_fails reviews_js_scope "S1" 1 10
           (Scenario.three_reviews reviews_js_scope)).
  reflexivity.
Defined.

(** * Status labels *)

Lemma toUpperCase_facts (c : ascii) :
  is_word (toUpperCase c) = is_word c /\
  toUpperCase (toUpperCase c) = toUpperCase c /\
  (c <> "_"%char -> toUpperCase c <> "_"%char).
Proof.
  destruct c as [[] [] [] [] [] [] [] []]; vm_compute;
    repeat split; try reflexivity; intros H; (exact H || discriminate).
Qed.

Lemma underscores_to_spaces_clean (s : string) :
  forall c, In c (list_ascii_of_string (underscores_to_spaces s)) -> c <> "_"%char.
Proof.
  induction s as [|a s IH]; simpl; intros c Hin; [destruct Hin|].
  destruct Hin as [<-|Hin]; [|apply IH, Hin].
  destruct (Ascii.eqb_spec a "_"%char) as [_|Hne]; [discriminate | exact Hne].
Qed.

Lemma underscores_to_spaces_id (s : string) :
  (forall c, In c (list_ascii_of_string s) -> c <> "_"%char) ->
  underscores_to_spaces s = s.
Proof.
  induction s as [|a s IH]; simpl; intros Hclean; [reflexivity|].
  rewrite IH by (intros c Hc; apply Hclean; right; exact Hc).
  destruct (Ascii.eqb_spec a "_"%char) as [->|_]; [|reflexivity].
  exfalso. apply (Hclean "_"%char); [left|]; reflexivity.
Qed.

Lemma capitalise_words_clean (s : string) :
  forall after_word,
    (forall c, In c (list_ascii_of_string s) -> c <> "_"%char) ->
    forall c, In c (list_ascii_of_string (capitalise_words after_word s)) ->
              c <> "_"%char.
Proof.
  induction s as [|a s IH]; simpl; intros after_word Hclean c Hin; [destruct Hin|].
  destruct Hin as [<-|Hin].
  - assert (a <> "_"%char) as Ha by (apply Hclean; left; reflexivity).
    destruct (is_word a && negb after_word); [|exact Ha].
    apply toUpperCase_facts, Ha.
  - eapply IH; [|exact Hin]. intros c' Hc'. apply Hclean. right. exact Hc'.
Qed.

Lemma capitalise_words_idempotent (s : string) :
  forall after_word,
    capitalise_words after_word (capitalise_words after_word s)
    = capitalise_words after_word s.
Proof.
  induction s as [|a s IH]; simpl; intros after_word; [reflexivity|].
  destruct (toUpperCase_facts a) as (Hword & Hupper & _).
  destruct (is_word a && negb after_word) eqn:Hcap.
  - rewrite Hword, Hcap, Hupper, IH. reflexivity.
  - rewrite Hcap, IH. reflexivity.
Qed.

Lemma capitalise_words_length (s : string) :
  forall after_word,
    String.length (capitalise_words after_word s) = String.length s.
Proof.
  induction s as [|a s IH]; simpl; intros after_word; [reflexivity|].
  rewrite IH. reflexivity.
Qed.

Lemma underscores_to_spaces_length (s : string) :
  String.length (underscores_to_spaces s) = String.length s.
Proof.
  induction s as [|a s IH]; simpl; [reflexivity | rewrite IH; reflexivity].
Qed.

(** The label [formatStatus] makes of a status has as many characters as the
    status and no underscore, and formatting a label again changes nothing. *)
Theorem formatStatus_label (status : string) :
  String.length (formatStatus status) = String.length status /\
  (forall c, In c (list_ascii_of_string (formatStatus status)) -> c <> "_"%char) /\
  formatStatus (formatStatus status) = formatStatus status.
Proof.
  unfold formatStatus. split; [|split].
  - rewrite capitalise_words_length, underscores_to_spaces_length. reflexivity.
  - apply capitalise_words_clean, underscores_to_spaces_clean.
  - rewrite underscores_to_spaces_id
      by (apply capitalise_words_clean, underscores_to_spaces_clean).
    apply capitalise_words_idempotent.
Qed.

(** The five statuses of the schema and their labels. *)
Example formatStatus_of_the_enum :
  map formatStatus Order.status_enum
  = ["Pending"; "Confirmed"; "Out For Delivery"; "Delivered"; "Cancelled"].
Proof. reflexivity. Qed.
